(** * go-lambda-api: a shallow embedding of the user CRUD service

    The development follows the packages of the repository:
    - [models]   : [User], [UserRequest.Validate], the [UserRepository]
                   interface and its in-memory and DynamoDB implementations;
    - [utils]    : [APIResponse], [ErrorResponse], [EnsureHeaders];
    - [handlers] : the five user handlers and the health handler;
    - [lambda]   : [Router];
    - [app]      : [adapt], the bridge from net/http to the handlers.

    Conventions.  A Go [error] is represented by its message (the code only
    ever inspects [err.Error()]), and a Go result pair [(v, err)] by a pair
    whose second component is [None] for a nil error.  A method with a pointer
    receiver on a store threads the store explicitly.  Calls into libraries that
    are not part of the repository (encoding/json, uuid, time, the DynamoDB
    client) are inputs of the model: type-class fields or explicit arguments.
    Logging is not modelled. *)

From stdpp Require Import gmap strings list fin_maps.
From Stdlib Require Import ZArith.

Local Open Scope Z_scope.
Local Open Scope string_scope.

(** The message carried by a Go [error]. *)
Definition error : Type := string.

(** [fmt.Errorf("<prefix>: %w", err)] as far as [Error()] is concerned. *)
Definition wrapf (prefix : string) (err : error) : error := prefix ++ ": " ++ err.

(** The double-quote character, for the JSON texts the code writes. *)
Definition dquote : string := String (Ascii.ascii_of_nat 34) EmptyString.

(** [quoted s] is [s] between double quotes. *)
Definition quoted (s : string) : string := dquote ++ s ++ dquote.

(** ** net/http constants used by the code *)
Module http.
Definition StatusOK : Z := 200.
Definition StatusCreated : Z := 201.
Definition StatusNoContent : Z := 204.
Definition StatusBadRequest : Z := 400.
Definition StatusNotFound : Z := 404.
Definition StatusInternalServerError : Z := 500.

Definition MethodGet : string := "GET".
Definition MethodPost : string := "POST".
Definition MethodPut : string := "PUT".
Definition MethodDelete : string := "DELETE".
Definition MethodOptions : string := "OPTIONS".
End http.

(** ** github.com/aws/aws-lambda-go/events *)
Module events.
(** The fields of [events.APIGatewayProxyRequest] that the code reads or
    writes.  A nil Go map reads like the empty map. *)
Record APIGatewayProxyRequest := mkRequest {
  Path : string;
  HTTPMethod : string;
  RequestHeaders : gmap string string;
  QueryStringParameters : gmap string string;
  PathParameters : gmap string string;
  RequestBody : string
}.

(** [events.APIGatewayProxyResponse].  [None] is a nil map: reading it is
    fine, writing to it panics, so the distinction is kept. *)
Record APIGatewayProxyResponse := mkResponse {
  StatusCode : Z;
  Headers : option (gmap string string);
  MultiValueHeaders : option (gmap string (list string));
  Body : string;
  IsBase64Encoded : bool
}.

(** The zero value [events.APIGatewayProxyResponse{}]. *)
Definition zeroResponse : APIGatewayProxyResponse :=
  mkResponse 0 None None "" false.
End events.
Export events.

(** ** package models *)
Module models.

(** [time.Time], as the number of nanoseconds since the zero instant; the
    zero value [time.Time{}] is [0]. *)
Definition Time : Type := Z.

Record User := mkUser {
  ID : string;
  Name : string;
  Email : string;
  CreatedAt : Time
}.

#[global] Instance User_eq_dec : EqDecision User.
Proof. solve_decision. Defined.

(** The zero value [User{}]. *)
Definition zeroUser : User := mkUser "" "" "" 0.

Record UserRequest := mkUserRequest {
  ReqName : string;
  ReqEmail : string
}.

Definition Validate (ur : UserRequest) (isUpdate : bool) : option error :=
  if negb isUpdate then
    if decide (ReqName ur = "") then Some "name is required"
    else if decide (ReqEmail ur = "") then Some "email is required"
    else None
  else if decide (ReqName ur = "" ∧ ReqEmail ur = "") then
    Some "no fields to update"
  else None.

(** The [UserRepository] interface, over the type [S] of the store the
    implementation works on. *)
Class UserRepository (S : Type) := {
  CreateUser : User → S → (User * option error) * S;
  GetUserByID : string → S → (User * option error) * S;
  GetAllUsers : S → list User * S;
  UpdateUser : User → S → (User * option error) * S;
  DeleteUser : string → S → option error * S
}.

(** *** inMemoryUserRepository: the field [users map[string]User] *)
Module inMemory.
Definition newStore : gmap string User := ∅.

Definition ClearUsers (r : gmap string User) : gmap string User := ∅.

Definition GetUserByID (id : string) (r : gmap string User)
  : (User * option error) * gmap string User :=
  match r !! id with
  | None => ((zeroUser, Some "user not found"), r)
  | Some user => ((user, None), r)
  end.

(** Go leaves the iteration order of a map unspecified.  The model lists
    the entries in the canonical order of the finite map; statements about
    the result are made up to permutation. *)
Definition GetAllUsers (r : gmap string User) : list User * gmap string User :=
  ((map_to_list r).*2, r).

Definition CreateUser (user : User) (r : gmap string User)
  : (User * option error) * gmap string User :=
  ((user, None), <[ID user := user]> r).

Definition UpdateUser (user : User) (r : gmap string User)
  : (User * option error) * gmap string User :=
  match r !! ID user with
  | None => ((zeroUser, Some "user not found"), r)
  | Some _ => ((user, None), <[ID user := user]> r)
  end.

Definition DeleteUser (id : string) (r : gmap string User)
  : option error * gmap string User :=
  match r !! id with
  | None => (Some "user not found", r)
  | Some _ => (None, delete id r)
  end.
End inMemory.

#[global] Instance inMemoryUserRepository : UserRepository (gmap string User) := {|
  CreateUser := inMemory.CreateUser;
  GetUserByID := inMemory.GetUserByID;
  GetAllUsers := inMemory.GetAllUsers;
  UpdateUser := inMemory.UpdateUser;
  DeleteUser := inMemory.DeleteUser
|}.

(** *** dynamoDBUserRepository

    The client [dynamodbiface.DynamoDBAPI] is an interface and
    [dynamodbattribute] a library: both are inputs.  [D] is whatever state
    the client works on, [AV] the type [*dynamodb.AttributeValue]. *)
Class DynamoDBAPI (D AV : Type) := {
  (** [aws.String(id)] wrapped as the attribute [{S: id}]. *)
  AttrS : string → AV;
  PutItem : string → gmap string AV → D → option error * D;
  (** The item of the output is [None] when [result.Item == nil]. *)
  GetItem : string → gmap string AV → D → (option (gmap string AV) * option error) * D;
  Scan : string → D → (list (gmap string AV) * option error) * D;
  DeleteItem : string → gmap string AV → D → option error * D;
  MarshalMap : User → gmap string AV * option error;
  UnmarshalMap : gmap string AV → User * option error;
  UnmarshalListOfMaps : list (gmap string AV) → list User * option error
}.

Module dynamoDB.
Section repo.
Context {D AV : Type} `{!DynamoDBAPI D AV}.
Variable tableName : string.

Definition CreateUser (user : User) (db : D) : (User * option error) * D :=
  match MarshalMap user with
  | (_, Some err) => ((zeroUser, Some (wrapf "failed to marshal user" err)), db)
  | (av, None) =>
      match PutItem tableName av db with
      | (Some err, db') =>
          ((zeroUser, Some (wrapf "failed to put item to DynamoDB" err)), db')
      | (None, db') => ((user, None), db')
      end
  end.

Definition GetUserByID (id : string) (db : D) : (User * option error) * D :=
  match GetItem tableName {[ "ID" := AttrS id ]} db with
  | ((_, Some err), db') =>
      ((zeroUser, Some (wrapf "failed to get item from DynamoDB" err)), db')
  | ((None, None), db') => ((zeroUser, Some "user not found"), db')
  | ((Some item, None), db') =>
      match UnmarshalMap item with
      | (_, Some err) => ((zeroUser, Some (wrapf "failed to unmarshal item" err)), db')
      | (user, None) => ((user, None), db')
      end
  end.

Definition GetAllUsers (db : D) : list User * D :=
  match Scan tableName db with
  | ((_, Some err), db') => ([], db')
  | ((items, None), db') =>
      match UnmarshalListOfMaps items with
      | (_, Some err) => ([], db')
      | (users, None) => (users, db')
      end
  end.

Definition UpdateUser (user : User) (db : D) : (User * option error) * D :=
  match MarshalMap user with
  | (_, Some err) => ((zeroUser, Some (wrapf "failed to marshal user" err)), db)
  | (av, None) =>
      match PutItem tableName av db with
      | (Some err, db') =>
          ((zeroUser, Some (wrapf "failed to update item in DynamoDB" err)), db')
      | (None, db') => ((user, None), db')
      end
  end.

Definition DeleteUser (id : string) (db : D) : option error * D :=
  match DeleteItem tableName {[ "ID" := AttrS id ]} db with
  | (Some err, db') => (Some (wrapf "failed to delete item from DynamoDB" err), db')
  | (None, db') => (None, db')
  end.
End repo.
End dynamoDB.

Definition NewDynamoDBUserRepository {D AV : Type} `{!DynamoDBAPI D AV}
    (tableName : string) : UserRepository D := {|
  CreateUser := dynamoDB.CreateUser tableName;
  GetUserByID := dynamoDB.GetUserByID tableName;
  GetAllUsers := dynamoDB.GetAllUsers tableName;
  UpdateUser := dynamoDB.UpdateUser tableName;
  DeleteUser := dynamoDB.DeleteUser tableName
|}.
End models.
Export models.


(** ** encoding/json, as used by the code

    [jsonMarshal] is the package variable [utils.jsonMarshal] (initially
    [json.Marshal]); the values handed to it are users, lists of users and
    [map[string]string] literals.  [jsonUnmarshal body] is
    [json.Unmarshal([]byte(body), &userReq)] on a zero-valued [userReq]: the
    struct after the call and the error. *)
Inductive Payload :=
| PUser (u : User)
| PUsers (l : list User)
| PStringMap (m : gmap string string).

Class JSON := {
  jsonMarshal : Payload → string * option error;
  jsonUnmarshal : string → UserRequest * option error
}.

(** What [uuid.New().String()] and [time.Now()] return during one request. *)
Record Ambient := mkAmbient {
  uuid_New : string;
  time_Now : Time
}.

(** A Go call either returns or panics. *)
Inductive Outcome (A : Type) :=
| Returned (a : A)
| Panicked (msg : string).
Arguments Returned {A} a.
Arguments Panicked {A} msg.

(** ** package utils *)
Module utils.
Section utils.
Context `{!JSON}.

Definition withHeaders (response : APIGatewayProxyResponse)
    (hs : option (gmap string string)) : APIGatewayProxyResponse :=
  mkResponse (StatusCode response) hs (MultiValueHeaders response)
             (Body response) (IsBase64Encoded response).

Definition EnsureHeaders (response : APIGatewayProxyResponse) : APIGatewayProxyResponse :=
  let hs := match Headers response with
            | None => ∅
            | Some hs => hs
            end in
  match hs !! "Content-Type" with
  | None => withHeaders response (Some (<["Content-Type" := "application/json"]> hs))
  | Some _ => withHeaders response (Some hs)
  end.

(** [body] is an [interface{}]: [None] is the nil interface. *)
Definition APIResponse (statusCode : Z) (body : option Payload)
  : APIGatewayProxyResponse * option error :=
  let headers : gmap string string := {[ "Content-Type" := "application/json" ]} in
  let marshalled :=
    match body with
    | None => ("", None)
    | Some b => jsonMarshal b
    end in
  match marshalled with
  | (_, Some err) =>
      (mkResponse http.StatusInternalServerError (Some headers) (Some ∅)
         ("{" ++ quoted "error" ++ ": " ++ quoted err ++ "}") false,
       Some (wrapf "failed to marshal response body" err))
  | (respBody, None) =>
      (EnsureHeaders (mkResponse statusCode (Some headers) (Some ∅) respBody false), None)
  end.

Definition ErrorResponse (statusCode : Z) (err : option error)
  : APIGatewayProxyResponse * option error :=
  let errMessage := match err with
                    | None => ""
                    | Some e => e
                    end in
  match jsonMarshal (PStringMap {[ "error" := errMessage ]}) with
  | (_, Some jsonErr) =>
      (mkResponse http.StatusInternalServerError None None
         ("{" ++ quoted "error" ++ ": " ++ quoted "failed to marshal error response" ++ "}")
         false,
       None)
  | (respBody, None) =>
      (EnsureHeaders
         (mkResponse statusCode (Some {[ "Content-Type" := "application/json" ]}) None
            respBody false),
       None)
  end.
End utils.
End utils.

(** ** package handlers *)
Module handlers.
Section handlers.
Context `{!JSON} {S : Type} `{!UserRepository S}.

(** The result of a handler and the store after the call. *)
Definition Result : Type := (APIGatewayProxyResponse * option error) * S.

(** [request.PathParameters["id"]]: the empty string when the key is absent. *)
Definition pathID (request : APIGatewayProxyRequest) : string :=
  default "" (PathParameters request !! "id").

Definition CreateUserHandler (env : Ambient) (request : APIGatewayProxyRequest)
    (s : S) : Result :=
  match jsonUnmarshal (RequestBody request) with
  | (_, Some err) => (utils.ErrorResponse http.StatusBadRequest (Some err), s)
  | (userReq, None) =>
      match Validate userReq false with
      | Some err => (utils.ErrorResponse http.StatusBadRequest (Some err), s)
      | None =>
          let newUser := mkUser (uuid_New env) (ReqName userReq) (ReqEmail userReq)
                                (time_Now env) in
          match CreateUser newUser s with
          | ((_, Some err), s') =>
              (utils.ErrorResponse http.StatusInternalServerError (Some err), s')
          | ((createdUser, None), s') =>
              (utils.APIResponse http.StatusCreated (Some (PUser createdUser)), s')
          end
      end
  end.

Definition GetUserHandler (request : APIGatewayProxyRequest) (s : S) : Result :=
  let userID := pathID request in
  if decide (userID = "") then
    (utils.ErrorResponse http.StatusBadRequest (Some "user ID is required"), s)
  else
    match GetUserByID userID s with
    | ((_, Some err), s') => (utils.ErrorResponse http.StatusNotFound (Some err), s')
    | ((user, None), s') => (utils.APIResponse http.StatusOK (Some (PUser user)), s')
    end.

Definition GetAllUsersHandler (request : APIGatewayProxyRequest) (s : S) : Result :=
  let '(userList, s') := GetAllUsers s in
  (utils.APIResponse http.StatusOK (Some (PUsers userList)), s').

Definition UpdateUserHandler (request : APIGatewayProxyRequest) (s : S) : Result :=
  let userID := pathID request in
  if decide (userID = "") then
    (utils.ErrorResponse http.StatusBadRequest (Some "user ID is required"), s)
  else
    match jsonUnmarshal (RequestBody request) with
    | (_, Some err) => (utils.ErrorResponse http.StatusBadRequest (Some err), s)
    | (userReq, None) =>
        match Validate userReq true with
        | Some err => (utils.ErrorResponse http.StatusBadRequest (Some err), s)
        | None =>
            match GetUserByID userID s with
            | ((_, Some err), s1) =>
                (utils.ErrorResponse http.StatusNotFound (Some err), s1)
            | ((existingUser, None), s1) =>
                let existingUser1 :=
                  if decide (ReqName userReq ≠ "") then
                    mkUser (ID existingUser) (ReqName userReq) (Email existingUser)
                           (CreatedAt existingUser)
                  else existingUser in
                let existingUser2 :=
                  if decide (ReqEmail userReq ≠ "") then
                    mkUser (ID existingUser1) (Name existingUser1) (ReqEmail userReq)
                           (CreatedAt existingUser1)
                  else existingUser1 in
                match UpdateUser existingUser2 s1 with
                | ((_, Some err), s2) =>
                    (utils.ErrorResponse http.StatusInternalServerError (Some err), s2)
                | ((updatedUser, None), s2) =>
                    (utils.APIResponse http.StatusOK (Some (PUser updatedUser)), s2)
                end
            end
        end
    end.

Definition DeleteUserHandler (request : APIGatewayProxyRequest) (s : S) : Result :=
  let userID := pathID request in
  if decide (userID = "") then
    (utils.ErrorResponse http.StatusBadRequest (Some "user ID is required"), s)
  else
    match DeleteUser userID s with
    | (Some err, s') =>
        if decide (err = "user not found") then
          (utils.ErrorResponse http.StatusNotFound (Some err), s')
        else
          (utils.ErrorResponse http.StatusInternalServerError (Some err), s')
    | (None, s') => (utils.APIResponse http.StatusNoContent None, s')
    end.

Definition GetHealthHandler (request : APIGatewayProxyRequest)
  : APIGatewayProxyResponse * option error :=
  utils.APIResponse http.StatusOK (Some (PStringMap {[ "message" := "Health Check OK" ]})).
End handlers.
End handlers.

(** ** package lambda (cmd/lambda) *)
Module lambda.
Definition UsersIDPath : string := "/users/{id}".
Definition RootPath : string := "/".
Definition HealthPath : string := "/health".
Definition UsersPath : string := "/users".

Definition commonHeaders : gmap string string :=
  {[ "Content-Type" := "application/json";
     "Access-Control-Allow-Origin" := "*";
     "Access-Control-Allow-Methods" := "GET,POST,PUT,DELETE,OPTIONS";
     "Access-Control-Allow-Headers" :=
       "Content-Type,Authorization,X-Amz-Date,X-Api-Key,X-Amz-Security-Token";
     "Access-Control-Allow-Credentials" := "true" ]}.

Section lambda.
Context `{!JSON} {S : Type} `{!UserRepository S}.

Definition handleRootGet (request : APIGatewayProxyRequest)
  : APIGatewayProxyResponse * option error :=
  utils.APIResponse http.StatusOK
    (Some (PStringMap {[ "message" := "Welcome to the Go Lambda API" ]})).

Definition handleCreateUser := handlers.CreateUserHandler (S := S).
Definition handleGetUser := handlers.GetUserHandler (S := S).
Definition handleGetAllUsers := handlers.GetAllUsersHandler (S := S).
Definition handleUpdateUser := handlers.UpdateUserHandler (S := S).
Definition handleDeleteUser := handlers.DeleteUserHandler (S := S).

(** The [switch] of [Router]: the first case whose condition holds runs. *)
Definition route (env : Ambient) (request : APIGatewayProxyRequest) (s : S)
  : handlers.Result (S := S) :=
  let path := Path request in
  let method := HTTPMethod request in
  if decide (path = RootPath ∧ method = http.MethodGet) then
    (handleRootGet request, s)
  else if decide (path = HealthPath ∧ method = http.MethodGet) then
    (handlers.GetHealthHandler request, s)
  else if decide (path = UsersPath ∧ method = http.MethodPost) then
    handleCreateUser env request s
  else if decide (path = UsersIDPath ∧ method = http.MethodGet) then
    handleGetUser request s
  else if decide (path = UsersPath ∧ method = http.MethodGet) then
    handleGetAllUsers request s
  else if decide (path = UsersIDPath ∧ method = http.MethodPut) then
    handleUpdateUser request s
  else if decide (path = UsersIDPath ∧ method = http.MethodDelete) then
    handleDeleteUser request s
  else
    (utils.ErrorResponse http.StatusNotFound (Some "not found"), s).

(** [Router].  The store [response.Headers = commonHeaders] before the switch
    is dead: every case assigns [response].  On the error path the loop
    [errorResponse.Headers[k] = v] writes into the map of the response that
    [ErrorResponse] returned, which panics when that map is nil. *)
Definition Router (env : Ambient) (request : APIGatewayProxyRequest) (s : S)
  : Outcome (APIGatewayProxyResponse * option error) * S :=
  if decide (HTTPMethod request = http.MethodOptions) then
    (Returned (mkResponse http.StatusOK (Some commonHeaders) None "" false, None), s)
  else
    let '((response, err), s') := route env request s in
    match err with
    | Some e =>
        let statusCode :=
          if decide (StatusCode response ≠ 0 ∧ StatusCode response ≠ http.StatusOK)
          then StatusCode response
          else http.StatusInternalServerError in
        let '(errorResponse, _) := utils.ErrorResponse statusCode (Some e) in
        match Headers errorResponse with
        | None => (Panicked "assignment to entry in nil map", s')
        | Some hs =>
            (Returned (utils.withHeaders errorResponse (Some (commonHeaders ∪ hs)), None), s')
        end
    | None =>
        let hs := match Headers response with
                  | None => ∅
                  | Some hs => hs
                  end in
        (Returned (utils.withHeaders response (Some (hs ∪ commonHeaders)), None), s')
    end.
End lambda.
End lambda.

(** ** package app (internal/app) *)
Module app.

(** The parts of [*http.Request] that [adapt] reads. *)
Record Request := mkHttpRequest {
  URLPath : string;
  Method : string;
  Header : gmap string (list string);
  Query : gmap string (list string);
  PathValue : string → string
}.

(** What has been written to an [http.ResponseWriter]: the header map (each
    key set once, so one value per key), the status line and the body. *)
Record ResponseWriter := mkWriter {
  wHeader : gmap string string;
  wStatus : Z;
  wBody : string
}.

(** [http.Error(w, msg, code)] on a writer on which nothing was set. *)
Definition http_Error (msg : string) (code : Z) : ResponseWriter :=
  mkWriter {[ "Content-Type" := "text/plain; charset=utf-8";
              "X-Content-Type-Options" := "nosniff" ]}
           code (msg ++ String (Ascii.ascii_of_nat 10) EmptyString).

(** [values[0]] for each name with at least one value. *)
Definition firstValues (m : gmap string (list string)) : gmap string string :=
  omap head m.

(** The [events.APIGatewayProxyRequest] that [adapt] builds from the HTTP
    request.  The body of the HTTP request is not copied. *)
Definition apiRequestOf (r : Request) : APIGatewayProxyRequest :=
  mkRequest (URLPath r) (Method r) (firstValues (Header r)) (firstValues (Query r))
            (if decide (PathValue r "id" ≠ "") then {[ "id" := PathValue r "id" ]} else ∅)
            "".

Section app.
Context {S : Type}.

(** [textproto.CanonicalMIMEHeaderKey], applied by [Header().Set]. *)
Variable CanonicalMIMEHeaderKey : string → string.

(** [adapt handler], applied to a request and a fresh writer.  The headers of
    the response are copied in the order in which the map yields them; the
    check of the status code by [WriteHeader] and a failure of [Write] are
    not modelled. *)
Definition adapt
    (handler : APIGatewayProxyRequest → S → (APIGatewayProxyResponse * option error) * S)
    (r : Request) (s : S) : ResponseWriter * S :=
  let apiReq := apiRequestOf r in
  match handler apiReq s with
  | ((_, Some err), s') => (http_Error err http.StatusInternalServerError, s')
  | ((apiResp, None), s') =>
      let hs := match Headers apiResp with
                | None => ∅
                | Some hs => hs
                end in
      (mkWriter (map_fold (λ key value w, <[CanonicalMIMEHeaderKey key := value]> w) ∅ hs)
                (StatusCode apiResp) (Body apiResp),
       s')
  end.
End app.
End app.

(** ** Auxiliary definitions for the statements *)

(** [N] calls of [CreateUser] in sequence on the in-memory repository: the
    results of the calls, in order, and the final store. *)
Fixpoint createAll (users : list User) (r : gmap string User)
  : list (User * option error) * gmap string User :=
  match users with
  | [] => ([], r)
  | user :: rest =>
      let '(res, r1) := inMemory.CreateUser user r in
      let '(results, r2) := createAll rest r1 in
      (res :: results, r2)
  end.

(** The text [{"error":"<msg>"}]. *)
Definition error_object (msg : string) : string :=
  "{" ++ quoted "error" ++ ":" ++ quoted msg ++ "}".

(** [json.Marshal(map[string]string{"error": msg})] yields [error_object msg]:
    what encoding/json does for a message that needs no escaping. *)
Definition encodes_error `{!JSON} (msg : string) : Prop :=
  jsonMarshal (PStringMap {[ "error" := msg ]}) = (error_object msg, None).

(** A handler reported [e] together with [response] because the encoding of
    the response body failed: the response has status 500 and [e] wraps the
    error of the encoder. *)
Definition encoding_failure `{!JSON} (response : APIGatewayProxyResponse) (e : error) : Prop :=
  StatusCode response = 500 ∧
  ∃ p out err, jsonMarshal p = (out, Some err) ∧
               e = wrapf "failed to marshal response body" err.

(** [json.Marshal] of a [map[string]string] never returns an error. *)
Definition encodes_string_maps `{!JSON} : Prop :=
  ∀ m : gmap string string, (jsonMarshal (PStringMap m)).2 = None.

(** The request body [{"name":"<name>","email":"<email>"}]. *)
Definition user_request_body (name email : string) : string :=
  "{" ++ quoted "name" ++ ":" ++ quoted name ++ ","
      ++ quoted "email" ++ ":" ++ quoted email ++ "}".

(** A small concrete codec to run the handlers on: string maps are written
    entry by entry without escaping, a user as the object of its four fields
    (the creation time left as an opaque token), and the decoder knows the
    request bodies used in the examples. *)
Definition sample_entries (m : gmap string string) : list string :=
  (λ kv, quoted kv.1 ++ ":" ++ quoted kv.2) <$> map_to_list m.

Fixpoint sample_join (l : list string) : string :=
  match l with
  | [] => ""
  | [x] => x
  | x :: rest => x ++ "," ++ sample_join rest
  end.

Definition sample_user (u : User) : string :=
  "{" ++ quoted "id" ++ ":" ++ quoted (ID u) ++ ","
      ++ quoted "name" ++ ":" ++ quoted (Name u) ++ ","
      ++ quoted "email" ++ ":" ++ quoted (Email u) ++ ","
      ++ quoted "created_at" ++ ":" ++ quoted "<ts>" ++ "}".

Definition sample_marshal (p : Payload) : string * option error :=
  match p with
  | PUser u => (sample_user u, None)
  | PUsers l => ("[" ++ sample_join (sample_user <$> l) ++ "]", None)
  | PStringMap m => ("{" ++ sample_join (sample_entries m) ++ "}", None)
  end.

Definition sample_unmarshal (body : string) : UserRequest * option error :=
  if decide (body = user_request_body "" "") then (mkUserRequest "" "", None)
  else if decide (body = user_request_body "Alice" "alice@example.com") then
    (mkUserRequest "Alice" "alice@example.com", None)
  else if decide (body = user_request_body "Bob" "") then (mkUserRequest "Bob" "", None)
  else (mkUserRequest "" "", Some "unexpected end of JSON input").

Definition sampleJSON : JSON := {|
  jsonMarshal := sample_marshal;
  jsonUnmarshal := sample_unmarshal
|}.

(** A line feed, as [fmt.Fprintln] appends. *)
Definition newline : string := String (Ascii.ascii_of_nat 10) EmptyString.

(** A codec whose encoder rejects lists of users and nothing else. *)
Definition failingListJSON : JSON := {|
  jsonMarshal := λ p, match p with
                      | PUsers _ => ("", Some "json: unsupported value")
                      | _ => sample_marshal p
                      end;
  jsonUnmarshal := sample_unmarshal
|}.

(** A codec whose encoder rejects everything, as a stub put in place of
    [utils.jsonMarshal] would. *)
Definition failingJSON : JSON := {|
  jsonMarshal := λ _, ("", Some "json: unsupported value");
  jsonUnmarshal := sample_unmarshal
|}.

(** A DynamoDB client whose scan always fails (its state and its attribute
    values are trivial). *)
Definition failingScanAPI : DynamoDBAPI unit unit := {|
  AttrS := λ _, tt;
  PutItem := λ _ _ db, (None, db);
  GetItem := λ _ _ db, ((None, None), db);
  Scan := λ _ db, (([], Some "RequestError: send request failed"), db);
  DeleteItem := λ _ _ db, (None, db);
  MarshalMap := λ _, (∅, None);
  UnmarshalMap := λ _, (zeroUser, None);
  UnmarshalListOfMaps := λ _, ([], None)
|}.

(** A repository that also records, in order, the operations invoked on it. *)
Definition traced {S : Type} (R : UserRepository S) : UserRepository (S * list string) := {|
  CreateUser user st :=
    let '(res, s') := CreateUser user st.1 in (res, (s', (st.2 ++ ["CreateUser"])%list));
  GetUserByID id st :=
    let '(res, s') := GetUserByID id st.1 in (res, (s', (st.2 ++ ["GetUserByID"])%list));
  GetAllUsers st :=
    let '(res, s') := GetAllUsers st.1 in (res, (s', (st.2 ++ ["GetAllUsers"])%list));
  UpdateUser user st :=
    let '(res, s') := UpdateUser user st.1 in (res, (s', (st.2 ++ ["UpdateUser"])%list));
  DeleteUser id st :=
    let '(res, s') := DeleteUser id st.1 in (res, (s', (st.2 ++ ["DeleteUser"])%list))
|}.

Definition alice : User := mkUser "u-1" "Alice" "alice@example.com" 1700000000.
Definition bob : User := mkUser "u-2" "Bob" "bob@example.com" 1700000001.

(** The fields after the two conditional assignments of [UpdateUserHandler]. *)
Definition patched (stored : User) (name email : string) : User :=
  mkUser (ID stored)
         (if decide (name = "") then Name stored else name)
         (if decide (email = "") then Email stored else email)
         (CreatedAt stored).

(** The request [PUT /users/{id}] with the path parameter [id] and a body. *)
Definition putUser (id : option string) (body : string) : APIGatewayProxyRequest :=
  mkRequest lambda.UsersIDPath http.MethodPut ∅ ∅
            (match id with
             | None => ∅
             | Some i => {[ "id" := i ]}
             end)
            body.

Definition deleteUser (id : string) : APIGatewayProxyRequest :=
  mkRequest lambda.UsersIDPath http.MethodDelete ∅ ∅ {[ "id" := id ]} "".

Definition postUser (body : string) : APIGatewayProxyRequest :=
  mkRequest lambda.UsersPath http.MethodPost ∅ ∅ ∅ body.

(** Every user of the store sits under its own id. *)
Definition store_wf (r : gmap string User) : Prop :=
  map_Forall (λ id user, ID user = id) r.

(** The status codes the handlers pass to [APIResponse] and [ErrorResponse],
    and the 500 those fall back to. *)
Definition knownStatus (code : Z) : Prop :=
  code ∈ [200; 201; 204; 400; 404; 500].

(** A response as the two constructors of utils leave it: a known status and
    either no header map or just the JSON content type. *)
Definition shaped (response : APIGatewayProxyResponse) : Prop :=
  knownStatus (StatusCode response) ∧
  (Headers response = None ∨
   Headers response = Some {[ "Content-Type" := "application/json" ]}) ∧
  IsBase64Encoded response = false.

(** The pairs of path and method that have a case in the switch of [Router]. *)
Definition routes : list (string * string) :=
  [ (lambda.RootPath, http.MethodGet);
    (lambda.HealthPath, http.MethodGet);
    (lambda.UsersPath, http.MethodPost);
    (lambda.UsersIDPath, http.MethodGet);
    (lambda.UsersPath, http.MethodGet);
    (lambda.UsersIDPath, http.MethodPut);
    (lambda.UsersIDPath, http.MethodDelete) ].

(** The response [ErrorResponse code msg] builds when the encoder accepts the
    error object: its body is whatever the encoder wrote. *)
Definition error_response `{!JSON} (code : Z) (msg : string) : APIGatewayProxyResponse :=
  mkResponse code (Some {[ "Content-Type" := "application/json" ]}) None
             (jsonMarshal (PStringMap {[ "error" := msg ]})).1 false.

(** The response [APIResponse code (Some p)] builds when the encoder accepts
    [p]. *)
Definition api_response `{!JSON} (code : Z) (p : Payload) : APIGatewayProxyResponse :=
  mkResponse code (Some {[ "Content-Type" := "application/json" ]}) (Some ∅)
             (jsonMarshal p).1 false.

Definition getUser (id : string) : APIGatewayProxyRequest :=
  mkRequest lambda.UsersIDPath http.MethodGet ∅ ∅ {[ "id" := id ]} "".

(** A DynamoDB client over a table that maps ids to users: an item holds the
    user under the attribute [user], and a key holds the id in the [ID] field
    of a user. *)
Definition tableAPI : DynamoDBAPI (gmap string User) User := {|
  AttrS := λ id, mkUser id "" "" 0;
  PutItem := λ _ item db,
    match item !! "user" with
    | Some u => (None, <[ID u := u]> db)
    | None => (Some "ValidationException", db)
    end;
  GetItem := λ _ key db,
    match key !! "ID" with
    | Some k => (((λ u, {[ "user" := u ]}) <$> db !! ID k, None), db)
    | None => ((None, Some "ValidationException"), db)
    end;
  Scan := λ _ db, (((λ u, {[ "user" := u ]}) <$> (map_to_list db).*2, None), db);
  DeleteItem := λ _ key db,
    match key !! "ID" with
    | Some k => (None, delete (ID k) db)
    | None => (Some "ValidationException", db)
    end;
  MarshalMap := λ u, ({[ "user" := u ]}, None);
  UnmarshalMap := λ item,
    match item !! "user" with
    | Some u => (u, None)
    | None => (zeroUser, Some "missing attribute")
    end;
  UnmarshalListOfMaps := λ items, (omap (λ item, item !! "user") items, None)
|}.

(** A DynamoDB client whose every call fails. *)
Definition failingAPI : DynamoDBAPI unit unit := {|
  AttrS := λ _, tt;
  PutItem := λ _ _ db, (Some "RequestError: send request failed", db);
  GetItem := λ _ _ db, ((None, Some "RequestError: send request failed"), db);
  Scan := λ _ db, (([], Some "RequestError: send request failed"), db);
  DeleteItem := λ _ _ db, (Some "RequestError: send request failed", db);
  MarshalMap := λ _, (∅, None);
  UnmarshalMap := λ _, (zeroUser, None);
  UnmarshalListOfMaps := λ _, ([], None)
|}.

(** * Properties *)

(** ** The in-memory repository *)
Section in_memory.
Implicit Types (r : gmap string User) (user : User) (id : string).

Lemma inMemory_CreateUser_eq user r :
  inMemory.CreateUser user r = ((user, None), <[ID user := user]> r).
Proof. reflexivity. Qed.

Lemma inMemory_GetUserByID_Some id user r :
  r !! id = Some user → inMemory.GetUserByID id r = ((user, None), r).
Proof. intros Hl. unfold inMemory.GetUserByID. by rewrite Hl. Qed.

Lemma inMemory_GetUserByID_None id r :
  r !! id = None → inMemory.GetUserByID id r = ((zeroUser, Some "user not found"), r).
Proof. intros Hl. unfold inMemory.GetUserByID. by rewrite Hl. Qed.

Lemma inMemory_DeleteUser_Some id user r :
  r !! id = Some user → inMemory.DeleteUser id r = (None, delete id r).
Proof. intros Hl. unfold inMemory.DeleteUser. by rewrite Hl. Qed.

Lemma inMemory_DeleteUser_None id r :
  r !! id = None → inMemory.DeleteUser id r = (Some "user not found", r).
Proof. intros Hl. unfold inMemory.DeleteUser. by rewrite Hl. Qed.

Lemma inMemory_UpdateUser_Some user old r :
  r !! ID user = Some old →
  inMemory.UpdateUser user r = ((user, None), <[ID user := user]> r).
Proof. intros Hl. unfold inMemory.UpdateUser. by rewrite Hl. Qed.

Lemma elem_of_GetAllUsers user r :
  user ∈ (inMemory.GetAllUsers r).1 ↔ ∃ id, r !! id = Some user.
Proof.
  unfold inMemory.GetAllUsers; simpl. rewrite list_elem_of_fmap. split.
  - intros [[id u] [-> Hin]]. exists id. by apply elem_of_map_to_list.
  - intros [id Hl]. exists (id, user). split; [done|]. by apply elem_of_map_to_list.
Qed.

(** The results of a run of creations are the users themselves, without error. *)
Lemma createAll_results users r :
  (createAll users r).1 = (λ u, (u, None)) <$> users.
Proof.
  revert r. induction users as [|user rest IH]; intros r; [done|].
  simpl. specialize (IH (<[ID user := user]> r)).
  destruct (createAll rest (<[ID user := user]> r)) as [results r2].
  simpl in *. by rewrite IH.
Qed.

(** The entries of the store after a run of creations with pairwise distinct
    ids, none of them in the store before. *)
Lemma createAll_entries users r :
  NoDup (ID <$> users) →
  (∀ u, u ∈ users → r !! ID u = None) →
  map_to_list (createAll users r).2 ≡ₚ ((λ u, (ID u, u)) <$> users) ++ map_to_list r.
Proof.
  revert r. induction users as [|user rest IH]; intros r Hnd Hfresh; [done|].
  apply NoDup_cons in Hnd as [Hnotin Hnd].
  simpl. specialize (IH (<[ID user := user]> r) Hnd).
  destruct (createAll rest (<[ID user := user]> r)) as [results r2].
  simpl in *. rewrite IH.
  - rewrite map_to_list_insert; [|apply Hfresh; left].
    by rewrite Permutation_middle.
  - intros u Hu. rewrite lookup_insert_ne; [apply Hfresh; by right|].
    intros Heq. apply Hnotin. rewrite Heq. apply list_elem_of_fmap. by exists u.
Qed.
End in_memory.

(** C10: the in-memory [CreateUser] never returns an error; for every store
    and every user it returns the user unchanged and stores it under its id,
    whether or not that id was taken, and leaves every other id alone. *)
Theorem inMemory_CreateUser_stores (r : gmap string User) (user : User) :
  ∃ r', inMemory.CreateUser user r = ((user, None), r') ∧
        r' !! ID user = Some user ∧
        (∀ id, id ≠ ID user → r' !! id = r !! id) ∧
        (∀ old, r !! ID user = Some old → r' = <[ID user := user]> (delete (ID user) r)).
Proof.
  exists (<[ID user := user]> r). split; [reflexivity|]. split; [|split].
  - apply lookup_insert_eq.
  - intros id Hne. by apply lookup_insert_ne.
  - intros old _. by rewrite insert_delete_eq.
Qed.

(** An existing user with the same id is replaced without any error. *)
Example inMemory_CreateUser_overwrites :
  let r : gmap string User := {[ "u-1" := alice ]} in
  let user := mkUser "u-1" "Mallory" "m@example.com" 5 in
  inMemory.CreateUser user r = ((user, None), {[ "u-1" := user ]}).
Proof. simpl. rewrite inMemory_CreateUser_eq. simpl. by rewrite insert_singleton_eq. Qed.

(** C7: starting from the empty store, [N] calls of [CreateUser] with pairwise
    distinct ids all succeed, and [GetAllUsers] then returns exactly [N]
    users, the created ones, in some order. *)
Theorem GetAllUsers_after_creates (users : list User) :
  NoDup (ID <$> users) →
  (createAll users inMemory.newStore).1 = (λ u, (u, None)) <$> users ∧
  length (inMemory.GetAllUsers (createAll users inMemory.newStore).2).1 = length users ∧
  (inMemory.GetAllUsers (createAll users inMemory.newStore).2).1 ≡ₚ users ∧
  (∀ u, u ∈ (inMemory.GetAllUsers (createAll users inMemory.newStore).2).1 ↔ u ∈ users).
Proof.
  intros Hnd.
  assert ((inMemory.GetAllUsers (createAll users inMemory.newStore).2).1 ≡ₚ users) as Hperm.
  { unfold inMemory.GetAllUsers, inMemory.newStore; simpl.
    rewrite createAll_entries; [|done|intros; apply lookup_empty].
    rewrite map_to_list_empty, app_nil_r, <- list_fmap_compose.
    by rewrite list_fmap_id. }
  split; [apply createAll_results|]. split; [by rewrite Hperm|]. split; [done|].
  intros u. by rewrite Hperm.
Qed.

Lemma GetAllUsers_after_creates_witness :
  (inMemory.GetAllUsers (createAll [alice; bob] inMemory.newStore).2).1 ≡ₚ [alice; bob].
Proof.
  apply (GetAllUsers_after_creates [alice; bob]).
  refine (@bool_decide_unpack (NoDup (ID <$> [alice; bob])) _ _).
  vm_compute. exact I.
Defined.

(** ** The DynamoDB repository *)

(** C6: [GetAllUsers] has no error result and always returns a list of users.
    On the DynamoDB repository a failed scan and a failed unmarshal both give
    the empty list, and otherwise the unmarshalled users are returned; on the
    in-memory repository the stored users are returned and the store is left
    as it was. *)
Theorem GetAllUsers_never_fails {D AV : Type} `{!DynamoDBAPI D AV}
    (tableName : string) (db : D) :
  (∀ items err db',
     Scan tableName db = ((items, Some err), db') →
     dynamoDB.GetAllUsers tableName db = ([], db')) ∧
  (∀ items db' users err,
     Scan tableName db = ((items, None), db') →
     UnmarshalListOfMaps items = (users, Some err) →
     dynamoDB.GetAllUsers tableName db = ([], db')) ∧
  (∀ items db' users,
     Scan tableName db = ((items, None), db') →
     UnmarshalListOfMaps items = (users, None) →
     dynamoDB.GetAllUsers tableName db = (users, db')) ∧
  (∀ r : gmap string User,
     (inMemory.GetAllUsers r).2 = r ∧
     ∀ u, u ∈ (inMemory.GetAllUsers r).1 ↔ ∃ id, r !! id = Some u).
Proof.
  unfold dynamoDB.GetAllUsers. repeat split.
  - intros items err db' ->. reflexivity.
  - intros items db' users err -> ->. reflexivity.
  - intros items db' users -> ->. reflexivity.
  - by apply elem_of_GetAllUsers.
  - by apply elem_of_GetAllUsers.
Qed.

(** A scan that fails yields the empty list. *)
Example GetAllUsers_failing_scan :
  @dynamoDB.GetAllUsers unit unit failingScanAPI "users" tt = ([], tt).
Proof. reflexivity. Qed.

(** ** package utils *)
Section utils_facts.
Context `{!JSON}.

Lemma EnsureHeaders_content_type code mvh body b :
  utils.EnsureHeaders
    (mkResponse code (Some {[ "Content-Type" := "application/json" ]}) mvh body b)
  = mkResponse code (Some {[ "Content-Type" := "application/json" ]}) mvh body b.
Proof. unfold utils.EnsureHeaders; simpl. by rewrite lookup_singleton_eq. Qed.

Lemma ErrorResponse_ok code msg body :
  jsonMarshal (PStringMap {[ "error" := msg ]}) = (body, None) →
  utils.ErrorResponse code (Some msg)
  = (mkResponse code (Some {[ "Content-Type" := "application/json" ]}) None body false,
     None).
Proof.
  intros Hm. unfold utils.ErrorResponse. rewrite Hm.
  by rewrite EnsureHeaders_content_type.
Qed.

Lemma ErrorResponse_encoded code msg :
  encodes_error msg →
  utils.ErrorResponse code (Some msg)
  = (mkResponse code (Some {[ "Content-Type" := "application/json" ]}) None
       (error_object msg) false,
     None).
Proof. apply ErrorResponse_ok. Qed.

(** [ErrorResponse] never returns an error. *)
Lemma ErrorResponse_no_error code err : (utils.ErrorResponse code err).2 = None.
Proof.
  unfold utils.ErrorResponse.
  by destruct (jsonMarshal _) as [body [jsonErr|]].
Qed.

Lemma APIResponse_nil code :
  utils.APIResponse code None
  = (mkResponse code (Some {[ "Content-Type" := "application/json" ]}) (Some ∅) "" false,
     None).
Proof. unfold utils.APIResponse. by rewrite EnsureHeaders_content_type. Qed.

Lemma APIResponse_ok code p body :
  jsonMarshal p = (body, None) →
  utils.APIResponse code (Some p)
  = (mkResponse code (Some {[ "Content-Type" := "application/json" ]}) (Some ∅) body false,
     None).
Proof.
  intros Hm. unfold utils.APIResponse. rewrite Hm.
  by rewrite EnsureHeaders_content_type.
Qed.

Lemma APIResponse_fail code p body err :
  jsonMarshal p = (body, Some err) →
  utils.APIResponse code (Some p)
  = (mkResponse http.StatusInternalServerError
       (Some {[ "Content-Type" := "application/json" ]}) (Some ∅)
       ("{" ++ quoted "error" ++ ": " ++ quoted err ++ "}") false,
     Some (wrapf "failed to marshal response body" err)).
Proof. intros Hm. unfold utils.APIResponse. by rewrite Hm. Qed.

(** When [APIResponse] reports an error, the response it returns with it has
    status 500: the only error is a failed encoding of the body. *)
Lemma APIResponse_error_inv code body response e :
  utils.APIResponse code body = (response, Some e) →
  StatusCode response = http.StatusInternalServerError ∧
  ∃ p out err, body = Some p ∧ jsonMarshal p = (out, Some err) ∧
               e = wrapf "failed to marshal response body" err.
Proof.
  unfold utils.APIResponse. destruct body as [p|].
  - destruct (jsonMarshal p) as [out [err|]] eqn:Hm; intros [= <- <-].
    split; [done|]. by exists p, out, err.
  - intros [= <- ?].
Qed.
End utils_facts.

(** ** package handlers *)
Section handler_guards.
Context `{!JSON} {S : Type} `{!UserRepository S}.
Implicit Types (request : APIGatewayProxyRequest) (s : S).

Lemma pathID_empty request :
  PathParameters request !! "id" = None ∨ PathParameters request !! "id" = Some "" →
  handlers.pathID request = "".
Proof. unfold handlers.pathID. by intros [-> | ->]. Qed.

Lemma GetUserHandler_no_id request s :
  handlers.pathID request = "" →
  handlers.GetUserHandler request s
  = (utils.ErrorResponse http.StatusBadRequest (Some "user ID is required"), s).
Proof. intros Hid. unfold handlers.GetUserHandler. by rewrite decide_True. Qed.

Lemma UpdateUserHandler_no_id request s :
  handlers.pathID request = "" →
  handlers.UpdateUserHandler request s
  = (utils.ErrorResponse http.StatusBadRequest (Some "user ID is required"), s).
Proof. intros Hid. unfold handlers.UpdateUserHandler. by rewrite decide_True. Qed.

Lemma DeleteUserHandler_no_id request s :
  handlers.pathID request = "" →
  handlers.DeleteUserHandler request s
  = (utils.ErrorResponse http.StatusBadRequest (Some "user ID is required"), s).
Proof. intros Hid. unfold handlers.DeleteUserHandler. by rewrite decide_True. Qed.

(** An update whose body decodes to two empty fields stops at validation. *)
Lemma UpdateUserHandler_invalid request s :
  handlers.pathID request ≠ "" →
  jsonUnmarshal (RequestBody request) = (mkUserRequest "" "", None) →
  handlers.UpdateUserHandler request s
  = (utils.ErrorResponse http.StatusBadRequest (Some "no fields to update"), s).
Proof.
  intros Hid Hdec. unfold handlers.UpdateUserHandler.
  rewrite decide_False by done. by rewrite Hdec.
Qed.
End handler_guards.

(** C9: when the path parameter [id] is absent or empty, the handlers for
    GET, PUT and DELETE on a single user answer 400 with the body
    [{"error":"user ID is required"}] and hand back the store they were given,
    whatever the repository is: no repository operation runs. *)
Theorem handlers_require_user_id `{!JSON} {S : Type} `{!UserRepository S}
    (request : APIGatewayProxyRequest) (s : S) :
  PathParameters request !! "id" = None ∨ PathParameters request !! "id" = Some "" →
  encodes_error "user ID is required" →
  ∃ response,
    StatusCode response = 400 ∧
    Body response = error_object "user ID is required" ∧
    handlers.GetUserHandler request s = ((response, None), s) ∧
    handlers.UpdateUserHandler request s = ((response, None), s) ∧
    handlers.DeleteUserHandler request s = ((response, None), s).
Proof.
  intros Hid%pathID_empty Henc.
  eexists. split; [|split; [|split; [|split]]]; cycle 2.
  - rewrite GetUserHandler_no_id by done. by rewrite ErrorResponse_encoded.
  - rewrite UpdateUserHandler_no_id by done. by rewrite ErrorResponse_encoded.
  - rewrite DeleteUserHandler_no_id by done. by rewrite ErrorResponse_encoded.
  - reflexivity.
  - reflexivity.
Qed.

(** On a repository that records its calls, a request without [id] leaves the
    record empty. *)
Lemma handlers_require_user_id_witness :
  ∃ response,
    StatusCode response = 400 ∧
    Body response = error_object "user ID is required" ∧
    @handlers.GetUserHandler sampleJSON _ (traced inMemoryUserRepository)
      (putUser None "") ({[ "u-1" := alice ]}, [])
    = ((response, None), ({[ "u-1" := alice ]}, [])) ∧
    @handlers.UpdateUserHandler sampleJSON _ (traced inMemoryUserRepository)
      (putUser None "") ({[ "u-1" := alice ]}, [])
    = ((response, None), ({[ "u-1" := alice ]}, [])) ∧
    @handlers.DeleteUserHandler sampleJSON _ (traced inMemoryUserRepository)
      (putUser None "") ({[ "u-1" := alice ]}, [])
    = ((response, None), ({[ "u-1" := alice ]}, [])).
Proof.
  apply (@handlers_require_user_id sampleJSON _ (traced inMemoryUserRepository)).
  - left. reflexivity.
  - vm_compute. reflexivity.
Defined.

(** C1 (amended): an update request that carries a non-empty [id] and whose
    body is the empty patch [{"name":"","email":""}] is answered with 400 and
    [{"error":"no fields to update"}], and the store handed back is the one
    given, whatever the repository is: no repository operation runs. *)
Theorem UpdateUserHandler_empty_patch `{!JSON} {S : Type} `{!UserRepository S}
    (request : APIGatewayProxyRequest) (s : S) :
  handlers.pathID request ≠ "" →
  RequestBody request = user_request_body "" "" →
  jsonUnmarshal (user_request_body "" "") = (mkUserRequest "" "", None) →
  encodes_error "no fields to update" →
  ∃ response,
    handlers.UpdateUserHandler request s = ((response, None), s) ∧
    StatusCode response = 400 ∧
    Body response = error_object "no fields to update".
Proof.
  intros Hid Hbody Hdec Henc. eexists. split.
  - rewrite UpdateUserHandler_invalid; [|done|by rewrite Hbody].
    by rewrite ErrorResponse_encoded.
  - done.
Qed.

Lemma UpdateUserHandler_empty_patch_witness :
  ∃ response,
    @handlers.UpdateUserHandler sampleJSON _ (traced inMemoryUserRepository)
      (putUser (Some "u-1") (user_request_body "" "")) ({[ "u-1" := alice ]}, [])
    = ((response, None), ({[ "u-1" := alice ]}, [])) ∧
    StatusCode response = 400 ∧
    Body response = error_object "no fields to update".
Proof.
  apply (@UpdateUserHandler_empty_patch sampleJSON _ (traced inMemoryUserRepository)).
  - vm_compute. discriminate.
  - reflexivity.
  - vm_compute. reflexivity.
  - vm_compute. reflexivity.
Defined.

(** C1, as first stated, fails for a request without [id]: the body is the
    empty patch, yet the answer is [{"error":"user ID is required"}]. *)
Lemma UpdateUserHandler_empty_patch_without_id :
  RequestBody (putUser None (user_request_body "" "")) = user_request_body "" "" ∧
  ∃ response,
    @handlers.UpdateUserHandler sampleJSON _ inMemoryUserRepository
      (putUser None (user_request_body "" "")) {[ "u-1" := alice ]}
    = ((response, None), {[ "u-1" := alice ]}) ∧
    Body response = error_object "user ID is required" ∧
    Body response ≠ error_object "no fields to update".
Proof.
  split; [reflexivity|]. eexists. split; [|split].
  - rewrite UpdateUserHandler_no_id by reflexivity. reflexivity.
  - vm_compute. reflexivity.
  - vm_compute. discriminate.
Qed.

(** ** package lambda *)

(** C8: a request whose method is OPTIONS gets, on any path and any store,
    the status 200, an empty body and the fixed CORS headers, and the store is
    not touched. *)
Theorem Router_options `{!JSON} {S : Type} `{!UserRepository S}
    (env : Ambient) (request : APIGatewayProxyRequest) (s : S) :
  HTTPMethod request = "OPTIONS" →
  ∃ response,
    lambda.Router env request s = (Returned (response, None), s) ∧
    StatusCode response = 200 ∧
    Body response = "" ∧
    Headers response = Some lambda.commonHeaders ∧
    lambda.commonHeaders !! "Access-Control-Allow-Origin" = Some "*" ∧
    lambda.commonHeaders !! "Access-Control-Allow-Methods"
      = Some "GET,POST,PUT,DELETE,OPTIONS" ∧
    lambda.commonHeaders !! "Access-Control-Allow-Headers"
      = Some "Content-Type,Authorization,X-Amz-Date,X-Api-Key,X-Amz-Security-Token" ∧
    lambda.commonHeaders !! "Access-Control-Allow-Credentials" = Some "true".
Proof.
  intros Hm. eexists. split.
  - unfold lambda.Router. rewrite decide_True by done. reflexivity.
  - repeat split; by vm_compute.
Qed.

Lemma Router_options_witness :
  ∃ response,
    @lambda.Router sampleJSON _ inMemoryUserRepository (mkAmbient "u-9" 1)
      (mkRequest "/no/such/path" "OPTIONS" ∅ ∅ ∅ "not json") {[ "u-1" := alice ]}
    = (Returned (response, None), {[ "u-1" := alice ]}) ∧
    StatusCode response = 200 ∧
    Body response = "" ∧
    Headers response = Some lambda.commonHeaders.
Proof.
  destruct (@Router_options sampleJSON _ inMemoryUserRepository (mkAmbient "u-9" 1)
              (mkRequest "/no/such/path" "OPTIONS" ∅ ∅ ∅ "not json") {[ "u-1" := alice ]})
    as (response & HR & Hs & Hb & Hh & _); [reflexivity|].
  by exists response.
Defined.

(** ** The handlers on the in-memory repository *)
Section handlers_in_memory.
Context `{!JSON}.
Implicit Types (request : APIGatewayProxyRequest) (r : gmap string User).

Lemma CreateUserHandler_valid env request r name email :
  jsonUnmarshal (RequestBody request) = (mkUserRequest name email, None) →
  name ≠ "" → email ≠ "" →
  handlers.CreateUserHandler env request r
  = (utils.APIResponse http.StatusCreated
       (Some (PUser (mkUser (uuid_New env) name email (time_Now env)))),
     <[uuid_New env := mkUser (uuid_New env) name email (time_Now env)]> r).
Proof.
  intros Hdec Hname Hemail. unfold handlers.CreateUserHandler, Validate.
  rewrite Hdec. simpl. by rewrite !decide_False.
Qed.

Lemma UpdateUserHandler_valid request r stored name email :
  handlers.pathID request ≠ "" →
  handlers.pathID request = ID stored →
  r !! ID stored = Some stored →
  jsonUnmarshal (RequestBody request) = (mkUserRequest name email, None) →
  name ≠ "" ∨ email ≠ "" →
  handlers.UpdateUserHandler request r
  = (utils.APIResponse http.StatusOK (Some (PUser (patched stored name email))),
     <[ID stored := patched stored name email]> r).
Proof.
  intros Hid Heq Hl Hdec Hvalid. unfold handlers.UpdateUserHandler, Validate, patched.
  rewrite decide_False by done. rewrite Hdec. simpl.
  rewrite decide_False by (intros [-> ->]; by destruct Hvalid).
  rewrite Heq. unfold inMemory.GetUserByID, inMemory.UpdateUser. rewrite Hl.
  destruct stored as [i n e c]; simpl in *.
  repeat case_decide; simplify_eq/=; by rewrite Hl.
Qed.

Lemma DeleteUserHandler_present request r user :
  handlers.pathID request ≠ "" →
  r !! handlers.pathID request = Some user →
  handlers.DeleteUserHandler request r
  = (utils.APIResponse http.StatusNoContent None, delete (handlers.pathID request) r).
Proof.
  intros Hid Hl. unfold handlers.DeleteUserHandler.
  rewrite decide_False by done. simpl.
  by rewrite (inMemory_DeleteUser_Some _ user).
Qed.

Lemma DeleteUserHandler_absent request r :
  handlers.pathID request ≠ "" →
  r !! handlers.pathID request = None →
  handlers.DeleteUserHandler request r
  = (utils.ErrorResponse http.StatusNotFound (Some "user not found"), r).
Proof.
  intros Hid Hl. unfold handlers.DeleteUserHandler.
  rewrite decide_False by done. simpl.
  rewrite inMemory_DeleteUser_None by done. by rewrite decide_True.
Qed.
End handlers_in_memory.




(** C3 (amended): for a user stored under its non-empty id and a valid update
    request for that id, the handler answers 200 with the encoded updated
    user and stores it under the same id; the updated user has the id and the
    creation time of the stored one, its name is the name of the request
    unless that is empty, in which case the stored name is kept, and likewise
    for the email. *)
Theorem UpdateUserHandler_updates `{!JSON} (request : APIGatewayProxyRequest)
    (r : gmap string User) (stored : User) (name email body : string) :
  ID stored ≠ "" →
  handlers.pathID request = ID stored →
  r !! ID stored = Some stored →
  jsonUnmarshal (RequestBody request) = (mkUserRequest name email, None) →
  name ≠ "" ∨ email ≠ "" →
  jsonMarshal (PUser (patched stored name email)) = (body, None) →
  ∃ response r' updated,
    handlers.UpdateUserHandler request r = ((response, None), r') ∧
    StatusCode response = 200 ∧
    Body response = body ∧
    jsonMarshal (PUser updated) = (body, None) ∧
    r' !! ID stored = Some updated ∧
    ID updated = ID stored ∧
    CreatedAt updated = CreatedAt stored ∧
    Name updated = (if decide (name = "") then Name stored else name) ∧
    Email updated = (if decide (email = "") then Email stored else email) ∧
    (∀ id, id ≠ ID stored → r' !! id = r !! id).
Proof.
  intros Hid Heq Hl Hdec Hvalid Henc.
  exists (mkResponse 200 (Some {[ "Content-Type" := "application/json" ]}) (Some ∅) body false),
         (<[ID stored := patched stored name email]> r),
         (patched stored name email).
  split.
  { rewrite (UpdateUserHandler_valid _ _ stored name email); try done.
    - by rewrite (APIResponse_ok _ _ body).
    - by rewrite Heq. }
  repeat split; try done.
  - apply lookup_insert_eq.
  - intros id Hne. by apply lookup_insert_ne.
Qed.

Lemma UpdateUserHandler_updates_witness :
  ∃ response r' updated,
    @handlers.UpdateUserHandler sampleJSON _ inMemoryUserRepository
      (putUser (Some "u-1") (user_request_body "Bob" "")) {[ "u-1" := alice ]}
    = ((response, None), r') ∧
    StatusCode response = 200 ∧
    r' !! "u-1" = Some updated ∧
    ID updated = "u-1" ∧
    CreatedAt updated = 1700000000 ∧
    Name updated = "Bob" ∧
    Email updated = "alice@example.com".
Proof.
  destruct (@UpdateUserHandler_updates sampleJSON
              (putUser (Some "u-1") (user_request_body "Bob" "")) {[ "u-1" := alice ]}
              alice "Bob" "" (sample_user (patched alice "Bob" "")))
    as (response & r' & updated & HR & Hs & _ & _ & Hl & Hid & Hc & Hn & He & _).
  - discriminate.
  - reflexivity.
  - reflexivity.
  - vm_compute. reflexivity.
  - left. discriminate.
  - reflexivity.
  - by exists response, r', updated.
Defined.

(** C3, as first stated, fails: an update is not a full replace.  With the
    valid body [{"name":"Bob","email":""}] the stored email survives, it is
    not replaced by the empty email of the request. *)
Lemma UpdateUserHandler_not_full_replace :
  jsonUnmarshal (JSON := sampleJSON) (user_request_body "Bob" "")
    = (mkUserRequest "Bob" "", None) ∧
  Validate (mkUserRequest "Bob" "") true = None ∧
  ∃ response r' updated,
    @handlers.UpdateUserHandler sampleJSON _ inMemoryUserRepository
      (putUser (Some "u-1") (user_request_body "Bob" "")) {[ "u-1" := alice ]}
    = ((response, None), r') ∧
    StatusCode response = 200 ∧
    r' !! "u-1" = Some updated ∧
    Email updated = "alice@example.com" ∧
    Email updated ≠ ReqEmail (mkUserRequest "Bob" "").
Proof.
  split; [by vm_compute|]. split; [reflexivity|].
  exists (mkResponse 200 (Some {[ "Content-Type" := "application/json" ]}) (Some ∅)
            (sample_user (patched alice "Bob" "")) false),
         (<[ID alice := patched alice "Bob" ""]> {[ "u-1" := alice ]}),
         (patched alice "Bob" "").
  split.
  { rewrite (UpdateUserHandler_valid _ _ alice "Bob" "");
      [reflexivity|done|done|done|by vm_compute|by left]. }
  repeat split; done.
Qed.

(** C4 (amended): for a non-empty id present in the in-memory repository,
    [DeleteUserHandler] answers 204 with an empty body and removes the user;
    the same request once more is answered with 404 and
    [{"error":"user not found"}], and the store stays as it is. *)
Theorem DeleteUserHandler_twice `{!JSON} (request : APIGatewayProxyRequest)
    (r : gmap string User) (user : User) :
  handlers.pathID request ≠ "" →
  r !! handlers.pathID request = Some user →
  encodes_error "user not found" →
  ∃ first second r',
    handlers.DeleteUserHandler request r = ((first, None), r') ∧
    StatusCode first = 204 ∧
    Body first = "" ∧
    r' = delete (handlers.pathID request) r ∧
    r' !! handlers.pathID request = None ∧
    handlers.DeleteUserHandler request r' = ((second, None), r') ∧
    StatusCode second = 404 ∧
    Body second = error_object "user not found".
Proof.
  intros Hid Hl Henc.
  exists (mkResponse 204 (Some {[ "Content-Type" := "application/json" ]}) (Some ∅) "" false),
         (mkResponse 404 (Some {[ "Content-Type" := "application/json" ]}) None
            (error_object "user not found") false),
         (delete (handlers.pathID request) r).
  split; [|split; [|split; [|split; [|split; [|split]]]]]; try done.
  - rewrite (DeleteUserHandler_present _ _ user) by done. by rewrite APIResponse_nil.
  - apply lookup_delete_eq.
  - rewrite DeleteUserHandler_absent; [|done|apply lookup_delete_eq].
    by rewrite ErrorResponse_encoded.
Qed.

Lemma DeleteUserHandler_twice_witness :
  ∃ first second r',
    @handlers.DeleteUserHandler sampleJSON _ inMemoryUserRepository
      (deleteUser "u-1") {[ "u-1" := alice; "u-2" := bob ]} = ((first, None), r') ∧
    StatusCode first = 204 ∧
    Body first = "" ∧
    r' !! "u-1" = None ∧
    @handlers.DeleteUserHandler sampleJSON _ inMemoryUserRepository
      (deleteUser "u-1") r' = ((second, None), r') ∧
    StatusCode second = 404 ∧
    Body second = error_object "user not found".
Proof.
  destruct (@DeleteUserHandler_twice sampleJSON (deleteUser "u-1")
              {[ "u-1" := alice; "u-2" := bob ]} alice)
    as (first & second & r' & H1 & Hs1 & Hb1 & _ & Hgone & H2 & Hs2 & Hb2).
  - discriminate.
  - reflexivity.
  - vm_compute. reflexivity.
  - by exists first, second, r'.
Defined.

(** C4, as first stated, fails for the empty id: a user stored under the empty
    id is present, yet the handler answers 400 and the user stays stored. *)
Lemma DeleteUserHandler_empty_id_present :
  ({[ "" := mkUser "" "Eve" "eve@example.com" 7 ]} : gmap string User) !! ""
    = Some (mkUser "" "Eve" "eve@example.com" 7) ∧
  ∃ response,
    @handlers.DeleteUserHandler sampleJSON _ inMemoryUserRepository
      (deleteUser "") {[ "" := mkUser "" "Eve" "eve@example.com" 7 ]}
    = ((response, None), {[ "" := mkUser "" "Eve" "eve@example.com" 7 ]}) ∧
    StatusCode response = 400 ∧
    StatusCode response ≠ 204 ∧
    Body response = error_object "user ID is required".
Proof.
  split; [reflexivity|]. eexists. split; [|split; [|split]].
  - rewrite DeleteUserHandler_no_id by reflexivity. reflexivity.
  - reflexivity.
  - discriminate.
  - vm_compute. reflexivity.
Qed.

(** ** Errors reported by the handlers and the router *)
Section dispatch.
Context `{!JSON} {S : Type} `{!UserRepository S}.
Implicit Types (request : APIGatewayProxyRequest) (s : S).

Lemma ErrorResponse_result_inv code err s response e s' :
  (utils.ErrorResponse code err, s) = ((response, Some e), s') → False.
Proof.
  intros Heq. pose proof (ErrorResponse_no_error code err) as Hn.
  destruct (utils.ErrorResponse code err) as [resp o]. simpl in Hn. congruence.
Qed.

Lemma APIResponse_result_inv code body s response e s' :
  (utils.APIResponse code body, s) = ((response, Some e), s') →
  encoding_failure response e.
Proof.
  destruct (utils.APIResponse code body) as [resp o] eqn:Hr. intros [= -> -> ->].
  apply APIResponse_error_inv in Hr as [Hs (p & out & err & _ & Hm & He)].
  split; [done|]. by exists p, out, err.
Qed.

(** Closes a goal about a handler that ended in [ErrorResponse] or
    [APIResponse] while reporting an error. *)
Ltac handler_leaf :=
  match goal with
  | H : (utils.ErrorResponse _ _, _) = ((_, Some _), _) |- _ =>
      exfalso; exact (ErrorResponse_result_inv _ _ _ _ _ _ H)
  | H : (utils.APIResponse _ _, _) = ((_, Some _), _) |- _ =>
      exact (APIResponse_result_inv _ _ _ _ _ _ H)
  end.

Lemma CreateUserHandler_error_inv env request s response e s' :
  handlers.CreateUserHandler env request s = ((response, Some e), s') →
  encoding_failure response e.
Proof.
  unfold handlers.CreateUserHandler.
  destruct (jsonUnmarshal _) as [userReq [err|]]; [intros; handler_leaf|].
  destruct (Validate _ _); [intros; handler_leaf|].
  destruct (CreateUser _ _) as [[created [err|]] s1]; intros; handler_leaf.
Qed.

Lemma GetUserHandler_error_inv request s response e s' :
  handlers.GetUserHandler request s = ((response, Some e), s') →
  encoding_failure response e.
Proof.
  unfold handlers.GetUserHandler. case_decide; [intros; handler_leaf|].
  destruct (GetUserByID _ _) as [[user [err|]] s1]; intros; handler_leaf.
Qed.

Lemma GetAllUsersHandler_error_inv request s response e s' :
  handlers.GetAllUsersHandler request s = ((response, Some e), s') →
  encoding_failure response e.
Proof.
  unfold handlers.GetAllUsersHandler.
  destruct (GetAllUsers s) as [userList s1]; intros; handler_leaf.
Qed.

Lemma UpdateUserHandler_error_inv request s response e s' :
  handlers.UpdateUserHandler request s = ((response, Some e), s') →
  encoding_failure response e.
Proof.
  unfold handlers.UpdateUserHandler. case_decide; [intros; handler_leaf|].
  destruct (jsonUnmarshal _) as [userReq [err|]]; [intros; handler_leaf|].
  destruct (Validate _ _); [intros; handler_leaf|].
  destruct (GetUserByID _ _) as [[existing [err|]] s1]; [intros; handler_leaf|].
  destruct (UpdateUser _ _) as [[updated [err|]] s2]; intros; handler_leaf.
Qed.

Lemma DeleteUserHandler_error_inv request s response e s' :
  handlers.DeleteUserHandler request s = ((response, Some e), s') →
  encoding_failure response e.
Proof.
  unfold handlers.DeleteUserHandler. case_decide; [intros; handler_leaf|].
  destruct (DeleteUser _ _) as [[err|] s1]; [case_decide|]; intros; handler_leaf.
Qed.

(** Whatever case of the switch runs, an error comes with a 500 response and
    stems from the encoder. *)
Lemma route_error_inv env request s response e s' :
  lambda.route env request s = ((response, Some e), s') →
  encoding_failure response e.
Proof.
  unfold lambda.route, lambda.handleRootGet, handlers.GetHealthHandler.
  repeat case_decide; intros Hr; try handler_leaf.
  - by apply CreateUserHandler_error_inv in Hr.
  - by apply GetUserHandler_error_inv in Hr.
  - by apply GetAllUsersHandler_error_inv in Hr.
  - by apply UpdateUserHandler_error_inv in Hr.
  - by apply DeleteUserHandler_error_inv in Hr.
Qed.

(** No case of the switch is for OPTIONS. *)
Lemma route_options env request s :
  HTTPMethod request = http.MethodOptions →
  lambda.route env request s
  = (utils.ErrorResponse http.StatusNotFound (Some "not found"), s).
Proof.
  intros Hm. unfold lambda.route. rewrite Hm.
  repeat (rewrite decide_False; [|by intros [_ ?]]). reflexivity.
Qed.
End dispatch.

(** C5: dispatch always produces a response.  [APIResponse] answers a failed
    encoding of the body with a 500 response, an error body and an error.
    With an encoder that, like [json.Marshal], never fails on a
    [map[string]string], [Router] returns a
    response and a nil error for every request and every store; when the
    handler it dispatched to reported an error, which only a failed encoding
    of the response body causes, that response has status 500 and the encoded
    error as its body.  Behind [adapt], a handler that reports an error is
    answered with status 500 and the error text. *)
Theorem dispatch_total `{!JSON} {S : Type} `{!UserRepository S}
    (env : Ambient) (request : APIGatewayProxyRequest) (s : S) :
  encodes_string_maps →
  (∀ code p out err,
     jsonMarshal p = (out, Some err) →
     ∃ response,
       utils.APIResponse code (Some p)
       = (response, Some (wrapf "failed to marshal response body" err)) ∧
       StatusCode response = 500 ∧
       Body response = "{" ++ quoted "error" ++ ": " ++ quoted err ++ "}") ∧
  (∃ response s',
     lambda.Router env request s = (Returned (response, None), s') ∧
     ∀ r e, (lambda.route env request s).1 = (r, Some e) →
       encoding_failure r e ∧
       StatusCode response = 500 ∧
       jsonMarshal (PStringMap {[ "error" := e ]}) = (Body response, None)) ∧
  (∀ canon handler (hr : app.Request),
     ∃ w s',
       app.adapt canon handler hr s = (w, s') ∧
       ∀ r e, (handler (app.apiRequestOf hr) s).1 = (r, Some e) →
         app.wStatus w = 500 ∧ app.wBody w = e ++ newline).
Proof.
  intros Henc. split; [|split].
  - intros code p out err Hm. eexists. split; [by apply (APIResponse_fail _ _ out)|]. done.
  - unfold lambda.Router. case_decide as Hm.
    + eexists _, _. split; [reflexivity|]. intros r e Hr.
      rewrite route_options in Hr by done. simpl in Hr.
      pose proof (ErrorResponse_no_error http.StatusNotFound (Some "not found")) as Hn.
      rewrite Hr in Hn. discriminate.
    + destruct (lambda.route env request s) as [[response [e|]] s'] eqn:Hr.
      * pose proof (route_error_inv _ _ _ _ _ _ Hr) as Hfail.
        destruct Hfail as [Hstatus Hwhy].
        rewrite Hstatus. rewrite decide_True by done.
        destruct (jsonMarshal (PStringMap {[ "error" := e ]})) as [body o] eqn:Hm'.
        pose proof (Henc {[ "error" := e ]}) as Hnone. rewrite Hm' in Hnone.
        simpl in Hnone. subst o.
        rewrite (ErrorResponse_ok _ _ body) by done. simpl.
        eexists _, _. split; [reflexivity|]. intros r e' [= <- <-].
        by repeat split.
      * eexists _, _. split; [reflexivity|]. intros r e [= _ ?].
  - intros canon handler hr. unfold app.adapt.
    destruct (handler (app.apiRequestOf hr) s) as [[apiResp [err|]] s'].
    + eexists _, _. split; [reflexivity|]. intros r e [= _ <-]. done.
    + eexists _, _. split; [reflexivity|]. intros r e [= _ ?].
Qed.

(** With an encoder that rejects lists of users, [GET /users] is answered by
    the router with status 500 and an error body, and no error is returned. *)
Lemma dispatch_total_witness :
  ∃ response s',
    @lambda.Router failingListJSON _ inMemoryUserRepository (mkAmbient "u-9" 1)
      (mkRequest "/users" "GET" ∅ ∅ ∅ "") {[ "u-1" := alice ]}
    = (Returned (response, None), s') ∧
    StatusCode response = 500 ∧
    Body response
    = error_object "failed to marshal response body: json: unsupported value".
Proof.
  destruct (@dispatch_total failingListJSON _ inMemoryUserRepository (mkAmbient "u-9" 1)
              (mkRequest "/users" "GET" ∅ ∅ ∅ "") {[ "u-1" := alice ]})
    as (_ & (response & s' & HR & Hfail) & _).
  - intros m. reflexivity.
  - exists response, s'. split; [exact HR|].
    destruct (Hfail (mkResponse 500 (Some {[ "Content-Type" := "application/json" ]})
                       (Some ∅)
                       ("{" ++ quoted "error" ++ ": " ++ quoted "json: unsupported value" ++ "}")
                       false)
                    "failed to marshal response body: json: unsupported value")
      as (_ & Hs & Hb); [reflexivity|].
    split; [exact Hs|].
    assert (@jsonMarshal failingListJSON
              (PStringMap
                 {[ "error" := "failed to marshal response body: json: unsupported value" ]})
            = (error_object "failed to marshal response body: json: unsupported value",
               None)) as Hm by (vm_compute; reflexivity).
    pose proof (eq_trans (eq_sym Hm) Hb) as Heq. by injection Heq as <-.
Defined.

(** The assumption on the encoder matters: were [utils.jsonMarshal] replaced
    by a stub that rejects everything, the response that [ErrorResponse] falls
    back to has no header map and the router's write into it panics. *)
Example Router_with_failing_encoder :
  @lambda.Router failingJSON _ inMemoryUserRepository (mkAmbient "u-9" 1)
    (mkRequest "/health" "GET" ∅ ∅ ∅ "") ∅
  = (Panicked "assignment to entry in nil map", ∅).
Proof. reflexivity. Qed.

(** Behind [adapt] the same stub is answered with a plain 500. *)
Example adapt_with_failing_encoder :
  app.adapt (λ key, key) (λ request s, (@handlers.GetHealthHandler failingJSON request, s))
    (app.mkHttpRequest "/health" "GET" ∅ ∅ (λ _, "")) tt
  = (app.http_Error "failed to marshal response body: json: unsupported value" 500, tt).
Proof. reflexivity. Qed.

(** * Further properties of the code *)

(** ** models: validation *)

(** X1: [Validate] accepts a create request exactly when both fields are
    non-empty and reports the name first when both are missing; it accepts an
    update request exactly when at least one field is non-empty; whatever is
    valid for a create is valid for an update. *)
Theorem Validate_accepts (ur : UserRequest) :
  (Validate ur false = None ↔ ReqName ur ≠ "" ∧ ReqEmail ur ≠ "") ∧
  (ReqName ur = "" → Validate ur false = Some "name is required") ∧
  (ReqName ur ≠ "" → ReqEmail ur = "" → Validate ur false = Some "email is required") ∧
  (Validate ur true = None ↔ ReqName ur ≠ "" ∨ ReqEmail ur ≠ "") ∧
  (Validate ur true ≠ None → Validate ur true = Some "no fields to update") ∧
  (Validate ur false = None → Validate ur true = None).
Proof.
  unfold Validate. destruct ur as [name email]; simpl.
  destruct (decide (name = "")) as [Hn|Hn], (decide (email = "")) as [He|He];
    repeat case_decide; intuition congruence.
Qed.

(** ** models: the in-memory repository *)

(** X2: the operations of the in-memory repository keep every user under its
    own id, and a successful [GetUserByID] returns a user with the id asked
    for. *)
Theorem inMemory_keeps_ids (r : gmap string User) :
  store_wf r →
  (∀ user, store_wf (inMemory.CreateUser user r).2) ∧
  (∀ user, store_wf (inMemory.UpdateUser user r).2) ∧
  (∀ id, store_wf (inMemory.DeleteUser id r).2) ∧
  store_wf (inMemory.ClearUsers r) ∧
  (∀ id user, (inMemory.GetUserByID id r).1 = (user, None) → ID user = id) ∧
  (∀ user, user ∈ (inMemory.GetAllUsers r).1 → r !! ID user = Some user).
Proof.
  intros Hwf. unfold store_wf in *. repeat split.
  - intros user. simpl. by apply map_Forall_insert_2.
  - intros user. unfold inMemory.UpdateUser.
    destruct (r !! ID user); simpl; [by apply map_Forall_insert_2|done].
  - intros id. unfold inMemory.DeleteUser.
    destruct (r !! id); simpl; [by apply map_Forall_delete|done].
  - apply map_Forall_empty.
  - intros id user. unfold inMemory.GetUserByID.
    destruct (r !! id) as [u|] eqn:Hl; simpl; intros [= <-]. by apply (Hwf id).
  - intros user [id Hl]%elem_of_GetAllUsers. by rewrite (Hwf id user Hl).
Qed.

Lemma inMemory_keeps_ids_witness :
  store_wf (inMemory.CreateUser bob {[ "u-1" := alice ]}).2.
Proof.
  apply (inMemory_keeps_ids {[ "u-1" := alice ]}).
  refine (@bool_decide_unpack (store_wf {[ "u-1" := alice ]}) _ _).
  vm_compute. exact I.
Defined.

(** X3: the in-memory [UpdateUser] never changes which ids are stored: for an
    id that is not stored it returns the zero user with "user not found" and
    leaves the store alone, for a stored id it replaces the user. *)
Theorem inMemory_UpdateUser_dom (user : User) (r : gmap string User) :
  dom (inMemory.UpdateUser user r).2 = dom r ∧
  (r !! ID user = None →
   inMemory.UpdateUser user r = ((zeroUser, Some "user not found"), r)) ∧
  (∀ old, r !! ID user = Some old →
   inMemory.UpdateUser user r = ((user, None), <[ID user := user]> r) ∧
   (inMemory.GetUserByID (ID user) (inMemory.UpdateUser user r).2).1 = (user, None)).
Proof.
  unfold inMemory.UpdateUser. destruct (r !! ID user) as [old|] eqn:Hl; simpl.
  - split; [|split; [done|]].
    + rewrite dom_insert_L. apply elem_of_dom_2 in Hl.
      apply subseteq_union_1_L. by apply singleton_subseteq_l.
    + intros old' _. split; [done|].
      unfold inMemory.GetUserByID. by rewrite lookup_insert_eq.
  - split; [done|]. split; [done|]. intros old' [=].
Qed.

(** X4: creating a user under an id that is not stored and deleting that id
    again gives back the store as it was, without error. *)
Theorem inMemory_create_delete (user : User) (r : gmap string User) :
  r !! ID user = None →
  inMemory.DeleteUser (ID user) (inMemory.CreateUser user r).2 = (None, r).
Proof.
  intros Hfresh. simpl. unfold inMemory.DeleteUser.
  rewrite lookup_insert_eq. by rewrite delete_insert_id.
Qed.

Lemma inMemory_create_delete_witness :
  inMemory.DeleteUser "u-2" (inMemory.CreateUser bob {[ "u-1" := alice ]}).2
  = (None, {[ "u-1" := alice ]}).
Proof. apply (inMemory_create_delete bob {[ "u-1" := alice ]}). reflexivity. Defined.

(** X5: after the in-memory [DeleteUser], whether it succeeded or not, the id
    is not found any more, every other id reads as before, and a second
    delete of the id fails with "user not found" without touching the store. *)
Theorem inMemory_DeleteUser_gone (id : string) (r : gmap string User) :
  (inMemory.GetUserByID id (inMemory.DeleteUser id r).2).1
    = (zeroUser, Some "user not found") ∧
  (∀ other, other ≠ id →
     (inMemory.GetUserByID other (inMemory.DeleteUser id r).2).1
     = (inMemory.GetUserByID other r).1) ∧
  inMemory.DeleteUser id (inMemory.DeleteUser id r).2
    = (Some "user not found", (inMemory.DeleteUser id r).2) ∧
  (r !! id = None → inMemory.DeleteUser id r = (Some "user not found", r)).
Proof.
  assert ((inMemory.DeleteUser id r).2 !! id = None) as Hgone.
  { unfold inMemory.DeleteUser. destruct (r !! id) eqn:Hl; simpl; [|done].
    apply lookup_delete_eq. }
  repeat split.
  - by apply (f_equal fst (inMemory_GetUserByID_None _ _ Hgone)).
  - intros other Hne. unfold inMemory.GetUserByID, inMemory.DeleteUser.
    destruct (r !! id) eqn:Hl; simpl; [|done].
    rewrite lookup_delete_ne by done. by destruct (r !! other).
  - by apply inMemory_DeleteUser_None.
  - apply inMemory_DeleteUser_None.
Qed.

(** X6: the in-memory [GetAllUsers] returns as many users as the store holds
    and leaves the store alone; when every user sits under its own id, no id
    occurs twice in the result. *)
Theorem inMemory_GetAllUsers_count (r : gmap string User) :
  length (inMemory.GetAllUsers r).1 = size r ∧
  (inMemory.GetAllUsers r).2 = r ∧
  (inMemory.GetAllUsers (inMemory.ClearUsers r)).1 = [] ∧
  (store_wf r → NoDup (ID <$> (inMemory.GetAllUsers r).1)).
Proof.
  unfold inMemory.GetAllUsers; simpl. repeat split.
  - by rewrite length_fmap, length_map_to_list.
  - intros Hwf.
    assert (ID <$> (map_to_list r).*2 = (map_to_list r).*1) as ->.
    { rewrite <- list_fmap_compose. apply list_fmap_ext.
      intros i [id user] Hi. simpl. apply (Hwf id user).
      apply elem_of_map_to_list. by eapply list_elem_of_lookup_2. }
    apply NoDup_fst_map_to_list.
Qed.

(** ** utils *)

(** X7: [EnsureHeaders] always leaves a header map with a [Content-Type]; it
    keeps every header that was set, with its value, so a [Content-Type] that
    was set wins over the default; it changes nothing but the headers (the
    status, the body, the multi-value headers and the base64 flag stay), and
    applying it twice is applying it once. *)
Theorem EnsureHeaders_props (response : APIGatewayProxyResponse) :
  ∃ hs,
    Headers (utils.EnsureHeaders response) = Some hs ∧
    is_Some (hs !! "Content-Type") ∧
    (∀ old key value,
       Headers response = Some old → old !! key = Some value → hs !! key = Some value) ∧
    (∀ key, key ≠ "Content-Type" →
       hs !! key = match Headers response with
                   | None => None
                   | Some old => old !! key
                   end) ∧
    (Headers response = None → hs !! "Content-Type" = Some "application/json") ∧
    (∀ old, Headers response = Some old → old !! "Content-Type" = None →
       hs !! "Content-Type" = Some "application/json") ∧
    StatusCode (utils.EnsureHeaders response) = StatusCode response ∧
    Body (utils.EnsureHeaders response) = Body response ∧
    MultiValueHeaders (utils.EnsureHeaders response) = MultiValueHeaders response ∧
    IsBase64Encoded (utils.EnsureHeaders response) = IsBase64Encoded response ∧
    utils.EnsureHeaders (utils.EnsureHeaders response) = utils.EnsureHeaders response.
Proof.
  destruct response as [code [old|] mvh body b]; unfold utils.EnsureHeaders; simpl.
  - destruct (old !! "Content-Type") as [ct|] eqn:Hct; simpl.
    + exists old. rewrite Hct. split_and!; try done.
      * by intros old' key value [= <-].
      * intros old' [= <-]. congruence.
    + exists (<["Content-Type" := "application/json"]> old).
      rewrite lookup_insert_eq. split_and!; try done.
      * intros old' key value [= <-] Hl.
        rewrite lookup_insert_ne; [done|]. intros <-. congruence.
      * intros key Hne. by rewrite lookup_insert_ne.
  - rewrite lookup_empty. simpl.
    exists (<["Content-Type" := "application/json"]> ∅).
    rewrite !lookup_insert_eq. split_and!; try done.
    intros key Hne. by rewrite lookup_insert_ne.
Qed.

(** ** What the helpers of utils return *)
Section shapes.
Context `{!JSON}.

Lemma knownStatus_500 : knownStatus 500.
Proof. unfold knownStatus. apply list_elem_of_In. simpl. auto 10. Qed.

Lemma ErrorResponse_shaped code err :
  knownStatus code → shaped (utils.ErrorResponse code err).1.
Proof.
  intros Hc. unfold utils.ErrorResponse.
  destruct (jsonMarshal _) as [body [jsonErr|]]; simpl.
  - split; [apply knownStatus_500|]. split; [by left|done].
  - rewrite EnsureHeaders_content_type. split; [done|]. split; [by right|done].
Qed.

Lemma APIResponse_shaped code body :
  knownStatus code → shaped (utils.APIResponse code body).1.
Proof.
  intros Hc. unfold utils.APIResponse.
  destruct (match body with
            | Some b => jsonMarshal b
            | None => ("", None)
            end) as [out [err|]]; simpl.
  - split; [apply knownStatus_500|]. split; [by right|done].
  - rewrite EnsureHeaders_content_type. split; [done|]. split; [by right|done].
Qed.

Lemma ErrorResponse_total code msg :
  encodes_string_maps →
  utils.ErrorResponse code (Some msg) = (error_response code msg, None).
Proof.
  intros Henc. pose proof (Henc {[ "error" := msg ]}) as Hn.
  destruct (jsonMarshal (PStringMap {[ "error" := msg ]})) as [body o] eqn:Hm.
  simpl in Hn. subst o. unfold error_response.
  rewrite (ErrorResponse_ok code msg body Hm).
  pose proof (f_equal fst Hm) as Hb. simpl in Hb.
  unfold error in *. by rewrite Hm.
Qed.

Lemma APIResponse_total code p :
  (jsonMarshal p).2 = None →
  utils.APIResponse code (Some p) = (api_response code p, None).
Proof.
  intros Hn. destruct (jsonMarshal p) as [body o] eqn:Hm. simpl in Hn. subst o.
  unfold api_response. rewrite (APIResponse_ok code p body Hm). by rewrite Hm.
Qed.
End shapes.

(** Proves [knownStatus] of one of the status constants. *)
Ltac known_status :=
  unfold knownStatus, http.StatusOK, http.StatusCreated, http.StatusNoContent,
    http.StatusBadRequest, http.StatusNotFound, http.StatusInternalServerError;
  apply list_elem_of_In; simpl; auto 10.

(** Proves [shaped] of the response of a handler once its branches are split. *)
Ltac shaped_leaf :=
  cbn [fst snd];
  first [ apply ErrorResponse_shaped; known_status
        | apply APIResponse_shaped; known_status ].

Section handler_shapes.
Context `{!JSON} {S : Type} `{!UserRepository S}.
Implicit Types (request : APIGatewayProxyRequest) (s : S).

Lemma CreateUserHandler_shaped env request s :
  shaped (handlers.CreateUserHandler env request s).1.1.
Proof.
  unfold handlers.CreateUserHandler.
  destruct (jsonUnmarshal _) as [userReq [err|]]; [shaped_leaf|].
  destruct (Validate _ _); [shaped_leaf|].
  destruct (CreateUser _ _) as [[created [err|]] s1]; shaped_leaf.
Qed.

Lemma GetUserHandler_shaped request s :
  shaped (handlers.GetUserHandler request s).1.1.
Proof.
  unfold handlers.GetUserHandler. case_decide; [shaped_leaf|].
  destruct (GetUserByID _ _) as [[user [err|]] s1]; shaped_leaf.
Qed.

Lemma GetAllUsersHandler_shaped request s :
  shaped (handlers.GetAllUsersHandler request s).1.1.
Proof.
  unfold handlers.GetAllUsersHandler.
  destruct (GetAllUsers s) as [userList s1]. shaped_leaf.
Qed.

Lemma UpdateUserHandler_shaped request s :
  shaped (handlers.UpdateUserHandler request s).1.1.
Proof.
  unfold handlers.UpdateUserHandler. case_decide; [shaped_leaf|].
  destruct (jsonUnmarshal _) as [userReq [err|]]; [shaped_leaf|].
  destruct (Validate _ _); [shaped_leaf|].
  destruct (GetUserByID _ _) as [[existing [err|]] s1]; [shaped_leaf|].
  destruct (UpdateUser _ _) as [[updated [err|]] s2]; shaped_leaf.
Qed.

Lemma DeleteUserHandler_shaped request s :
  shaped (handlers.DeleteUserHandler request s).1.1.
Proof.
  unfold handlers.DeleteUserHandler. case_decide; [shaped_leaf|].
  destruct (DeleteUser _ _) as [[err|] s1]; [case_decide|]; shaped_leaf.
Qed.

Lemma route_shaped env request s :
  shaped (lambda.route env request s).1.1.
Proof.
  unfold lambda.route, lambda.handleRootGet, handlers.GetHealthHandler.
  repeat case_decide; try shaped_leaf.
  - apply CreateUserHandler_shaped.
  - apply GetUserHandler_shaped.
  - apply GetAllUsersHandler_shaped.
  - apply UpdateUserHandler_shaped.
  - apply DeleteUserHandler_shaped.
Qed.

(** Merging the common headers into the headers of a shaped response gives
    the common headers, whichever side wins. *)
Lemma merge_commonHeaders response :
  shaped response →
  match Headers response with
  | None => ∅
  | Some hs => hs
  end ∪ lambda.commonHeaders = lambda.commonHeaders.
Proof.
  intros (_ & [-> | ->] & _).
  - apply (left_id_L ∅ (∪)).
  - apply map_eq. intros key. rewrite lookup_union.
    destruct (decide (key = "Content-Type")) as [->|Hne]; [reflexivity|].
    rewrite lookup_singleton_ne by done. by destruct (lambda.commonHeaders !! key).
Qed.

Lemma commonHeaders_override :
  lambda.commonHeaders ∪ {[ "Content-Type" := "application/json" ]}
  = lambda.commonHeaders.
Proof.
  apply map_eq. intros key. rewrite lookup_union.
  destruct (decide (key = "Content-Type")) as [->|Hne]; [reflexivity|].
  rewrite lookup_singleton_ne by done. by destruct (lambda.commonHeaders !! key).
Qed.
End handler_shapes.

(** ** handlers and lambda: the shape of every answer *)

(** X8: whatever the repository does and whatever the codec does, each
    handler answers with one of the statuses 200, 201, 204, 400, 404 and 500. *)
Theorem handlers_known_status `{!JSON} {S : Type} `{!UserRepository S}
    (env : Ambient) (request : APIGatewayProxyRequest) (s : S) :
  knownStatus (StatusCode (handlers.CreateUserHandler env request s).1.1) ∧
  knownStatus (StatusCode (handlers.GetUserHandler request s).1.1) ∧
  knownStatus (StatusCode (handlers.GetAllUsersHandler request s).1.1) ∧
  knownStatus (StatusCode (handlers.UpdateUserHandler request s).1.1) ∧
  knownStatus (StatusCode (handlers.DeleteUserHandler request s).1.1) ∧
  knownStatus (StatusCode (handlers.GetHealthHandler request).1).
Proof.
  repeat split.
  - apply CreateUserHandler_shaped.
  - apply GetUserHandler_shaped.
  - apply GetAllUsersHandler_shaped.
  - apply UpdateUserHandler_shaped.
  - apply DeleteUserHandler_shaped.
  - unfold handlers.GetHealthHandler. apply APIResponse_shaped. known_status.
Qed.

(** X9: whenever [Router] returns, the error it returns is nil, the status is
    one of 200, 201, 204, 400, 404 and 500, the headers are exactly the common
    headers (the handlers set nothing that differs from them) and the response
    is not marked as base64. *)
Theorem Router_response_shape `{!JSON} {S : Type} `{!UserRepository S}
    (env : Ambient) (request : APIGatewayProxyRequest) (s s' : S)
    (response : APIGatewayProxyResponse) (err : option error) :
  lambda.Router env request s = (Returned (response, err), s') →
  err = None ∧
  knownStatus (StatusCode response) ∧
  Headers response = Some lambda.commonHeaders ∧
  IsBase64Encoded response = false.
Proof.
  unfold lambda.Router. case_decide as Hm.
  { intros [= <- <- <-]. repeat split. known_status. }
  pose proof (route_shaped env request s) as Hshape.
  destruct (lambda.route env request s) as [[routed [e|]] s1]; simpl in Hshape.
  - set (statusCode := if decide (StatusCode routed ≠ 0 ∧ StatusCode routed ≠ http.StatusOK)
                       then StatusCode routed else http.StatusInternalServerError).
    assert (knownStatus statusCode) as Hknown.
    { unfold statusCode. case_decide; [apply Hshape|apply knownStatus_500]. }
    pose proof (ErrorResponse_shaped statusCode (Some e) Hknown) as Herr.
    destruct (utils.ErrorResponse statusCode (Some e)) as [errorResponse o].
    destruct Herr as (Hstatus & Hheaders & Hb64). simpl in *.
    destruct (Headers errorResponse) as [hs|] eqn:Hhs; [|intros [=]].
    intros [= <- <- <-]. repeat split; try done. simpl.
    destruct Hheaders as [[=] | [= ->]]. by rewrite commonHeaders_override.
  - intros [= <- <- <-]. repeat split; try apply Hshape. simpl.
    by rewrite (merge_commonHeaders routed Hshape).
Qed.

Lemma Router_response_shape_witness :
  @lambda.Router sampleJSON _ inMemoryUserRepository (mkAmbient "u-9" 1) (getUser "u-1") ∅
  = (Returned (mkResponse 404 (Some lambda.commonHeaders) None
                 (error_object "user not found") false, None), ∅) ∧
  knownStatus 404 ∧
  Some lambda.commonHeaders = Some lambda.commonHeaders.
Proof.
  assert (@lambda.Router sampleJSON _ inMemoryUserRepository (mkAmbient "u-9" 1)
            (getUser "u-1") ∅
          = (Returned (mkResponse 404 (Some lambda.commonHeaders) None
                         (error_object "user not found") false, None), ∅)) as HR
    by (vm_compute; reflexivity).
  split; [exact HR|].
  destruct (Router_response_shape _ _ _ _ _ _ HR) as (_ & Hs & Hh & _).
  split; [exact Hs|exact Hh].
Defined.

Lemma commonHeaders_default :
  {[ "Content-Type" := "application/json" ]} ∪ lambda.commonHeaders
  = lambda.commonHeaders.
Proof.
  apply map_eq. intros key. rewrite lookup_union.
  destruct (decide (key = "Content-Type")) as [->|Hne]; [reflexivity|].
  rewrite lookup_singleton_ne by done. by destruct (lambda.commonHeaders !! key).
Qed.

(** X10: a request whose method is not OPTIONS and whose path and method have
    no case in the switch is answered 404 with [{"error":"not found"}] and
    the common headers, and the store is not touched.  The paths are compared
    as they are: only the literal [/users/{id}] selects the single-user
    routes. *)
Theorem Router_not_found `{!JSON} {S : Type} `{!UserRepository S}
    (env : Ambient) (request : APIGatewayProxyRequest) (s : S) :
  HTTPMethod request ≠ "OPTIONS" →
  (Path request, HTTPMethod request) ∉ routes →
  encodes_error "not found" →
  lambda.Router env request s
  = (Returned (mkResponse 404 (Some lambda.commonHeaders) None
                 (error_object "not found") false, None), s).
Proof.
  intros Hm Hroutes Henc.
  assert (lambda.route env request s
          = (utils.ErrorResponse http.StatusNotFound (Some "not found"), s)) as Hr.
  { unfold lambda.route.
    repeat (rewrite decide_False;
            [|intros [Hp Hmeth]; apply Hroutes; rewrite Hp, Hmeth;
              apply list_elem_of_In; simpl; auto 10]).
    reflexivity. }
  unfold lambda.Router. rewrite decide_False by done. rewrite Hr.
  rewrite ErrorResponse_encoded by done. cbn [Headers].
  unfold utils.withHeaders. cbn [StatusCode MultiValueHeaders Body IsBase64Encoded].
  by rewrite commonHeaders_default.
Qed.

Lemma Router_not_found_witness :
  @lambda.Router sampleJSON _ inMemoryUserRepository (mkAmbient "u-9" 1)
    (mkRequest "/users/u-1" "GET" ∅ ∅ {[ "id" := "u-1" ]} "") {[ "u-1" := alice ]}
  = (Returned (mkResponse 404 (Some lambda.commonHeaders) None
                 (error_object "not found") false, None), {[ "u-1" := alice ]}).
Proof.
  apply (@Router_not_found sampleJSON _ inMemoryUserRepository).
  - discriminate.
  - refine (@bool_decide_unpack (_ ∉ routes) _ _). vm_compute. exact I.
  - vm_compute. reflexivity.
Defined.

(** X11: for a method other than OPTIONS, when the handler selected by the
    switch returns without error, [Router] returns that handler's response
    with its status, body and flags unchanged and the common headers as its
    headers, together with the store the handler left. *)
Theorem Router_runs_handler `{!JSON} {S : Type} `{!UserRepository S}
    (env : Ambient) (request : APIGatewayProxyRequest) (s s' : S)
    (response : APIGatewayProxyResponse) :
  HTTPMethod request ≠ "OPTIONS" →
  lambda.route env request s = ((response, None), s') →
  lambda.Router env request s
  = (Returned (mkResponse (StatusCode response) (Some lambda.commonHeaders)
                 (MultiValueHeaders response) (Body response)
                 (IsBase64Encoded response), None), s').
Proof.
  intros Hm Hr. pose proof (route_shaped env request s) as Hshape.
  unfold lambda.Router. rewrite decide_False by done. rewrite Hr in *.
  simpl in *. unfold utils.withHeaders.
  by rewrite (merge_commonHeaders response Hshape).
Qed.

Lemma Router_runs_handler_witness :
  @lambda.Router sampleJSON _ inMemoryUserRepository (mkAmbient "u-9" 1)
    (getUser "u-1") {[ "u-1" := alice ]}
  = (Returned (mkResponse 200 (Some lambda.commonHeaders) (Some ∅)
                 (sample_user alice) false, None), {[ "u-1" := alice ]}).
Proof.
  apply (@Router_runs_handler sampleJSON _ inMemoryUserRepository (mkAmbient "u-9" 1)
           (getUser "u-1") {[ "u-1" := alice ]} {[ "u-1" := alice ]}
           (mkResponse 200 (Some {[ "Content-Type" := "application/json" ]}) (Some ∅)
              (sample_user alice) false)).
  - discriminate.
  - vm_compute. reflexivity.
Defined.

(** X12: [Router] panics in exactly one situation: the method is not OPTIONS,
    the handler it ran reported an error, and the encoder also rejects the
    error object made from that error.  The store is then the one the handler
    left. *)
Theorem Router_panics_iff `{!JSON} {S : Type} `{!UserRepository S}
    (env : Ambient) (request : APIGatewayProxyRequest) (s s' : S) (msg : string) :
  lambda.Router env request s = (Panicked msg, s') ↔
  HTTPMethod request ≠ "OPTIONS" ∧
  msg = "assignment to entry in nil map" ∧
  ∃ response e,
    lambda.route env request s = ((response, Some e), s') ∧
    (jsonMarshal (PStringMap {[ "error" := e ]})).2 ≠ None.
Proof.
  unfold lambda.Router. case_decide as Hm.
  { split; [intros [=]|]. by intros [? _]. }
  destruct (lambda.route env request s) as [[response [e|]] s1].
  - unfold utils.ErrorResponse.
    destruct (jsonMarshal (PStringMap {[ "error" := e ]})) as [body [jsonErr|]] eqn:Hj;
      simpl.
    + split.
      * intros [= <- <-]. split; [done|]. split; [done|].
        exists response, e. split; [done|]. unfold error in *. by rewrite Hj.
      * intros (_ & -> & r & e' & [= <- <- <-] & _). done.
    + rewrite EnsureHeaders_content_type. simpl. split; [intros [=]|].
      intros (_ & _ & r & e' & [= <- <- <-] & Hfail).
      unfold error in *. rewrite Hj in Hfail. done.
  - split; [intros [=]|]. intros (_ & _ & r & e' & [=] & _).
Qed.

(** ** handlers: reading and rejecting *)

(** X13: on the in-memory repository, [GetUserHandler] with a non-empty id
    answers 200 with the encoded user when the id is stored and 404 with
    "user not found" when it is not, and leaves the store as it is. *)
Theorem GetUserHandler_in_memory `{!JSON} (request : APIGatewayProxyRequest)
    (r : gmap string User) :
  handlers.pathID request ≠ "" →
  encodes_string_maps →
  (∀ user, r !! handlers.pathID request = Some user →
     (jsonMarshal (PUser user)).2 = None →
     handlers.GetUserHandler request r = ((api_response 200 (PUser user), None), r)) ∧
  (r !! handlers.pathID request = None →
     handlers.GetUserHandler request r
     = ((error_response 404 "user not found", None), r)).
Proof.
  intros Hid Henc. unfold handlers.GetUserHandler.
  rewrite decide_False by done. simpl. split.
  - intros user Hl Hm. rewrite (inMemory_GetUserByID_Some _ user) by done.
    by rewrite APIResponse_total.
  - intros Hl. rewrite inMemory_GetUserByID_None by done.
    by rewrite ErrorResponse_total.
Qed.

Lemma GetUserHandler_in_memory_witness :
  @handlers.GetUserHandler sampleJSON _ inMemoryUserRepository (getUser "u-7")
    {[ "u-1" := alice ]}
  = ((@error_response sampleJSON 404 "user not found", None), {[ "u-1" := alice ]}).
Proof.
  apply (@GetUserHandler_in_memory sampleJSON (getUser "u-7") {[ "u-1" := alice ]}).
  - discriminate.
  - intros m. reflexivity.
  - reflexivity.
Defined.

(** X14: on the DynamoDB repository, [GetUserHandler] answers 404 for every
    error of [GetUserByID]: not only for a missing item, but also when
    [GetItem] fails and when the item cannot be unmarshalled; the body then
    carries the wrapped error.  A found item is answered 200 with the encoded
    user. *)
Theorem GetUserHandler_dynamoDB `{!JSON} {D AV : Type} `{!DynamoDBAPI D AV}
    (tableName : string) (request : APIGatewayProxyRequest) (db : D) :
  handlers.pathID request ≠ "" →
  encodes_string_maps →
  (∀ out err db',
     GetItem tableName {[ "ID" := AttrS (handlers.pathID request) ]} db
       = ((out, Some err), db') →
     @handlers.GetUserHandler _ D (NewDynamoDBUserRepository tableName) request db
     = ((error_response 404 (wrapf "failed to get item from DynamoDB" err), None), db')) ∧
  (∀ db',
     GetItem tableName {[ "ID" := AttrS (handlers.pathID request) ]} db
       = ((None, None), db') →
     @handlers.GetUserHandler _ D (NewDynamoDBUserRepository tableName) request db
     = ((error_response 404 "user not found", None), db')) ∧
  (∀ item user err db',
     GetItem tableName {[ "ID" := AttrS (handlers.pathID request) ]} db
       = ((Some item, None), db') →
     UnmarshalMap item = (user, Some err) →
     @handlers.GetUserHandler _ D (NewDynamoDBUserRepository tableName) request db
     = ((error_response 404 (wrapf "failed to unmarshal item" err), None), db')) ∧
  (∀ item user db',
     GetItem tableName {[ "ID" := AttrS (handlers.pathID request) ]} db
       = ((Some item, None), db') →
     UnmarshalMap item = (user, None) →
     (jsonMarshal (PUser user)).2 = None →
     @handlers.GetUserHandler _ D (NewDynamoDBUserRepository tableName) request db
     = ((api_response 200 (PUser user), None), db')).
Proof.
  intros Hid Henc. unfold handlers.GetUserHandler.
  rewrite decide_False by done. simpl. unfold dynamoDB.GetUserByID.
  repeat split.
  - intros out err db' ->. destruct out; simpl; by rewrite ErrorResponse_total.
  - intros db' ->. simpl. by rewrite ErrorResponse_total.
  - intros item user err db' -> ->. simpl. by rewrite ErrorResponse_total.
  - intros item user db' -> -> Hm. simpl. by rewrite APIResponse_total.
Qed.

Lemma GetUserHandler_dynamoDB_witness :
  @handlers.GetUserHandler sampleJSON unit
    (@NewDynamoDBUserRepository unit unit failingAPI "users") (getUser "u-1") tt
  = ((@error_response sampleJSON 404
        "failed to get item from DynamoDB: RequestError: send request failed", None), tt).
Proof.
  destruct (@GetUserHandler_dynamoDB sampleJSON unit unit failingAPI "users"
              (getUser "u-1") tt) as (Hfail & _).
  - discriminate.
  - intros m. reflexivity.
  - apply (Hfail None "RequestError: send request failed" tt). reflexivity.
Defined.

(** X15: on the DynamoDB repository, [DeleteUserHandler] never answers 404:
    the repository reports no missing user, so the answer is 204 whenever
    [DeleteItem] succeeds and 500 with the wrapped error whenever it fails. *)
Theorem DeleteUserHandler_dynamoDB `{!JSON} {D AV : Type} `{!DynamoDBAPI D AV}
    (tableName : string) (request : APIGatewayProxyRequest) (db : D) :
  handlers.pathID request ≠ "" →
  encodes_string_maps →
  (∀ db',
     DeleteItem tableName {[ "ID" := AttrS (handlers.pathID request) ]} db = (None, db') →
     @handlers.DeleteUserHandler _ D (NewDynamoDBUserRepository tableName) request db
     = ((mkResponse 204 (Some {[ "Content-Type" := "application/json" ]}) (Some ∅)
           "" false, None), db')) ∧
  (∀ err db',
     DeleteItem tableName {[ "ID" := AttrS (handlers.pathID request) ]} db
       = (Some err, db') →
     @handlers.DeleteUserHandler _ D (NewDynamoDBUserRepository tableName) request db
     = ((error_response 500 (wrapf "failed to delete item from DynamoDB" err), None),
        db')) ∧
  StatusCode
    (@handlers.DeleteUserHandler _ D (NewDynamoDBUserRepository tableName) request db).1.1
  ≠ 404.
Proof.
  intros Hid Henc. unfold handlers.DeleteUserHandler.
  rewrite decide_False by done. simpl. unfold dynamoDB.DeleteUser.
  destruct (DeleteItem tableName _ db) as [[err|] db1]; repeat split.
  - intros db' [=].
  - intros err' db' [= <- <-]. rewrite decide_False by (unfold wrapf; discriminate).
    by rewrite ErrorResponse_total.
  - rewrite decide_False by (unfold wrapf; discriminate).
    rewrite ErrorResponse_total by done. discriminate.
  - intros db' [= <-]. by rewrite APIResponse_nil.
  - intros err' db' [=].
  - rewrite APIResponse_nil. discriminate.
Qed.

(** Deleting an id that the table does not hold is answered 204. *)
Lemma DeleteUserHandler_dynamoDB_witness :
  @handlers.DeleteUserHandler sampleJSON (gmap string User)
    (@NewDynamoDBUserRepository _ _ tableAPI "users") (deleteUser "u-7")
    {[ "u-1" := alice ]}
  = ((mkResponse 204 (Some {[ "Content-Type" := "application/json" ]}) (Some ∅)
        "" false, None), {[ "u-1" := alice ]}).
Proof.
  destruct (@DeleteUserHandler_dynamoDB sampleJSON _ _ tableAPI "users"
              (deleteUser "u-7") {[ "u-1" := alice ]}) as (Hok & _).
  - discriminate.
  - intros m. reflexivity.
  - apply Hok. vm_compute. reflexivity.
Defined.

(** X16: [CreateUserHandler] answers 400 with the decoder's error when the
    body does not decode, 400 with "name is required" when the name is empty
    and 400 with "email is required" when only the email is empty; in all
    three cases the store is handed back untouched, whatever the repository.
    An error of the repository's [CreateUser] is answered 500. *)
Theorem CreateUserHandler_rejects `{!JSON} {S : Type} `{!UserRepository S}
    (env : Ambient) (request : APIGatewayProxyRequest) (s : S) :
  encodes_string_maps →
  (∀ partial err,
     jsonUnmarshal (RequestBody request) = (partial, Some err) →
     handlers.CreateUserHandler env request s = ((error_response 400 err, None), s)) ∧
  (∀ email,
     jsonUnmarshal (RequestBody request) = (mkUserRequest "" email, None) →
     handlers.CreateUserHandler env request s
     = ((error_response 400 "name is required", None), s)) ∧
  (∀ name,
     jsonUnmarshal (RequestBody request) = (mkUserRequest name "", None) →
     name ≠ "" →
     handlers.CreateUserHandler env request s
     = ((error_response 400 "email is required", None), s)) ∧
  (∀ name email created err s',
     jsonUnmarshal (RequestBody request) = (mkUserRequest name email, None) →
     name ≠ "" → email ≠ "" →
     CreateUser (mkUser (uuid_New env) name email (time_Now env)) s
       = ((created, Some err), s') →
     handlers.CreateUserHandler env request s = ((error_response 500 err, None), s')).
Proof.
  intros Henc. unfold handlers.CreateUserHandler, Validate. repeat split.
  - intros partial err ->. by rewrite ErrorResponse_total.
  - intros email ->. simpl. by rewrite ErrorResponse_total.
  - intros name -> Hname. simpl. rewrite decide_False by done.
    by rewrite ErrorResponse_total.
  - intros name email created err s' -> Hname Hemail. simpl.
    rewrite !decide_False by done. intros ->. by rewrite ErrorResponse_total.
Qed.

(** A body that is not JSON never reaches the repository. *)
Lemma CreateUserHandler_rejects_witness :
  @handlers.CreateUserHandler sampleJSON _ (traced inMemoryUserRepository)
    (mkAmbient "u-9" 1) (postUser "not json") ({[ "u-1" := alice ]}, [])
  = ((@error_response sampleJSON 400 "unexpected end of JSON input", None),
     ({[ "u-1" := alice ]}, [])).
Proof.
  destruct (@CreateUserHandler_rejects sampleJSON _ (traced inMemoryUserRepository)
              (mkAmbient "u-9" 1) (postUser "not json") ({[ "u-1" := alice ]}, []))
    as (Hdecode & _).
  - intros m. reflexivity.
  - apply (Hdecode (mkUserRequest "" "")). vm_compute. reflexivity.
Defined.

(** X17: [UpdateUserHandler] with a non-empty id answers 400 with the
    decoder's error when the body does not decode; for a valid body it asks
    the repository for the user first and answers 404 with the repository's
    error when that fails, without calling [UpdateUser]; an error of
    [UpdateUser] itself is answered 500. *)
Theorem UpdateUserHandler_rejects `{!JSON} {S : Type} `{!UserRepository S}
    (request : APIGatewayProxyRequest) (s : S) :
  handlers.pathID request ≠ "" →
  encodes_string_maps →
  (∀ partial err,
     jsonUnmarshal (RequestBody request) = (partial, Some err) →
     handlers.UpdateUserHandler request s = ((error_response 400 err, None), s)) ∧
  (∀ userReq found err s1,
     jsonUnmarshal (RequestBody request) = (userReq, None) →
     Validate userReq true = None →
     GetUserByID (handlers.pathID request) s = ((found, Some err), s1) →
     handlers.UpdateUserHandler request s = ((error_response 404 err, None), s1)) ∧
  (∀ name email existing s1 updated err s2,
     jsonUnmarshal (RequestBody request) = (mkUserRequest name email, None) →
     Validate (mkUserRequest name email) true = None →
     GetUserByID (handlers.pathID request) s = ((existing, None), s1) →
     UpdateUser (patched existing name email) s1 = ((updated, Some err), s2) →
     handlers.UpdateUserHandler request s = ((error_response 500 err, None), s2)).
Proof.
  intros Hid Henc. unfold handlers.UpdateUserHandler.
  rewrite decide_False by done. repeat split.
  - intros partial err ->. by rewrite ErrorResponse_total.
  - intros userReq found err s1 -> -> ->. by rewrite ErrorResponse_total.
  - intros name email existing s1 updated err s2 -> -> -> Hupd. simpl.
    assert ((if decide (email ≠ "")
             then mkUser (ID (if decide (name ≠ "")
                              then mkUser (ID existing) name (Email existing)
                                          (CreatedAt existing)
                              else existing))
                         (Name (if decide (name ≠ "")
                                then mkUser (ID existing) name (Email existing)
                                            (CreatedAt existing)
                                else existing))
                         email
                         (CreatedAt (if decide (name ≠ "")
                                     then mkUser (ID existing) name (Email existing)
                                                 (CreatedAt existing)
                                     else existing))
             else (if decide (name ≠ "")
                   then mkUser (ID existing) name (Email existing) (CreatedAt existing)
                   else existing))
            = patched existing name email) as ->.
    { unfold patched. destruct existing as [i n e c]; simpl.
      repeat case_decide; simpl; congruence. }
    rewrite Hupd. by rewrite ErrorResponse_total.
Qed.

(** An update of an id that is not stored asks for the user and stops. *)
Lemma UpdateUserHandler_rejects_witness :
  @handlers.UpdateUserHandler sampleJSON _ (traced inMemoryUserRepository)
    (putUser (Some "u-7") (user_request_body "Bob" "")) ({[ "u-1" := alice ]}, [])
  = ((@error_response sampleJSON 404 "user not found", None),
     ({[ "u-1" := alice ]}, ["GetUserByID"])).
Proof.
  destruct (@UpdateUserHandler_rejects sampleJSON _ (traced inMemoryUserRepository)
              (putUser (Some "u-7") (user_request_body "Bob" ""))
              ({[ "u-1" := alice ]}, [])) as (_ & Hmissing & _).
  - discriminate.
  - intros m. reflexivity.
  - apply (Hmissing (mkUserRequest "Bob" "") zeroUser).
    + vm_compute. reflexivity.
    + reflexivity.
    + reflexivity.
Defined.

(** X18: [GetAllUsersHandler] answers 200 with the encoded list even when the
    DynamoDB scan or the unmarshalling of its items fails: the body is then
    the encoding of the empty list, as for an empty in-memory store. *)
Theorem GetAllUsersHandler_degrades `{!JSON} {D AV : Type} `{!DynamoDBAPI D AV}
    (tableName : string) (request : APIGatewayProxyRequest) (db : D) :
  (jsonMarshal (PUsers [])).2 = None →
  (∀ items err db',
     Scan tableName db = ((items, Some err), db') →
     @handlers.GetAllUsersHandler _ D (NewDynamoDBUserRepository tableName) request db
     = ((api_response 200 (PUsers []), None), db')) ∧
  (∀ items users err db',
     Scan tableName db = ((items, None), db') →
     UnmarshalListOfMaps items = (users, Some err) →
     @handlers.GetAllUsersHandler _ D (NewDynamoDBUserRepository tableName) request db
     = ((api_response 200 (PUsers []), None), db')) ∧
  @handlers.GetAllUsersHandler _ _ inMemoryUserRepository request ∅
  = ((api_response 200 (PUsers []), None), ∅).
Proof.
  intros Hm. unfold handlers.GetAllUsersHandler. simpl.
  unfold dynamoDB.GetAllUsers. repeat split.
  - intros items err db' ->. by rewrite APIResponse_total.
  - intros items users err db' -> ->. by rewrite APIResponse_total.
  - unfold inMemory.GetAllUsers. rewrite map_to_list_empty. simpl.
    by rewrite APIResponse_total.
Qed.

Lemma GetAllUsersHandler_degrades_witness :
  @handlers.GetAllUsersHandler sampleJSON unit
    (@NewDynamoDBUserRepository unit unit failingAPI "users")
    (mkRequest "/users" "GET" ∅ ∅ ∅ "") tt
  = ((mkResponse 200 (Some {[ "Content-Type" := "application/json" ]}) (Some ∅)
        "[]" false, None), tt).
Proof.
  destruct (@GetAllUsersHandler_degrades sampleJSON unit unit failingAPI "users"
              (mkRequest "/users" "GET" ∅ ∅ ∅ "") tt) as (Hscan & _).
  - reflexivity.
  - apply (Hscan [] "RequestError: send request failed" tt). reflexivity.
Defined.

(** ** models: the DynamoDB repository *)

(** X19: the DynamoDB [UpdateUser] makes no check that the user exists: it
    marshals and puts the item exactly as [CreateUser] does, so it succeeds
    when and only when [CreateUser] would, returns the same user and leaves
    the same state; only the message of a failed put differs.  When the
    marshalling fails, nothing is put. *)
Theorem dynamoDB_UpdateUser_upsert {D AV : Type} `{!DynamoDBAPI D AV}
    (tableName : string) (user : User) (db : D) :
  (dynamoDB.UpdateUser tableName user db).2 = (dynamoDB.CreateUser tableName user db).2 ∧
  (dynamoDB.UpdateUser tableName user db).1.1
    = (dynamoDB.CreateUser tableName user db).1.1 ∧
  ((dynamoDB.UpdateUser tableName user db).1.2 = None ↔
   (dynamoDB.CreateUser tableName user db).1.2 = None) ∧
  ((dynamoDB.UpdateUser tableName user db).1.2 = None →
   (dynamoDB.UpdateUser tableName user db).1.1 = user) ∧
  (∀ av err, MarshalMap user = (av, Some err) →
     dynamoDB.UpdateUser tableName user db
     = ((zeroUser, Some (wrapf "failed to marshal user" err)), db) ∧
     dynamoDB.CreateUser tableName user db
     = ((zeroUser, Some (wrapf "failed to marshal user" err)), db)) ∧
  (∀ av err db', MarshalMap user = (av, None) →
     PutItem tableName av db = (Some err, db') →
     dynamoDB.UpdateUser tableName user db
     = ((zeroUser, Some (wrapf "failed to update item in DynamoDB" err)), db') ∧
     dynamoDB.CreateUser tableName user db
     = ((zeroUser, Some (wrapf "failed to put item to DynamoDB" err)), db')).
Proof.
  unfold dynamoDB.UpdateUser, dynamoDB.CreateUser.
  destruct (MarshalMap user) as [av [merr|]] eqn:Hmarshal.
  - split_and!; try done; intros; split; congruence.
  - destruct (PutItem tableName av db) as [[perr|] db1] eqn:Hput; simpl;
      split_and!; try done; intros; split; congruence.
Qed.

(** ** app: the bridge from net/http *)

(** X20: the request that [adapt] hands to a handler carries the path and the
    method of the HTTP request, for each header and each query parameter the
    first of its values (a name without values is dropped), the path value
    [id] as the only path parameter, so that the handler reads exactly
    [PathValue("id")] as the id, and an empty body. *)
Theorem apiRequestOf_fields (r : app.Request) :
  Path (app.apiRequestOf r) = app.URLPath r ∧
  HTTPMethod (app.apiRequestOf r) = app.Method r ∧
  (∀ name, RequestHeaders (app.apiRequestOf r) !! name = app.Header r !! name ≫= head) ∧
  (∀ name,
     QueryStringParameters (app.apiRequestOf r) !! name = app.Query r !! name ≫= head) ∧
  handlers.pathID (app.apiRequestOf r) = app.PathValue r "id" ∧
  (∀ key, key ≠ "id" → PathParameters (app.apiRequestOf r) !! key = None) ∧
  RequestBody (app.apiRequestOf r) = "".
Proof.
  unfold app.apiRequestOf, app.firstValues, handlers.pathID; simpl. split_and!; try done.
  - intros name. apply lookup_omap.
  - intros name. apply lookup_omap.
  - case_decide as Hid.
    + by rewrite lookup_singleton_eq.
    + rewrite lookup_empty. simpl. by rewrite Hid.
  - intros key Hne. case_decide; [by rewrite lookup_singleton_ne|apply lookup_empty].
Qed.

(** X21: since [adapt] passes an empty body, a decoder that rejects the empty
    input (as [json.Unmarshal] does) makes the create and the update handler
    behind [adapt] answer 400 for every HTTP request, with the store
    untouched: the repository is never reached. *)
Theorem adapt_never_decodes `{!JSON} {S : Type} `{!UserRepository S}
    (canon : string → string) (env : Ambient) (hr : app.Request) (s : S)
    (partial : UserRequest) (err : error) :
  jsonUnmarshal "" = (partial, Some err) →
  encodes_string_maps →
  (∃ w,
     app.adapt canon (handlers.CreateUserHandler env) hr s = (w, s) ∧
     app.wStatus w = 400 ∧
     app.wBody w = (jsonMarshal (PStringMap {[ "error" := err ]})).1) ∧
  (∃ w,
     app.adapt canon handlers.UpdateUserHandler hr s = (w, s) ∧
     app.wStatus w = 400).
Proof.
  intros Hdec Henc. unfold app.adapt. split.
  - unfold handlers.CreateUserHandler.
    change (RequestBody (app.apiRequestOf hr)) with "". rewrite Hdec.
    rewrite ErrorResponse_total by done. eexists. split; [reflexivity|]. done.
  - unfold handlers.UpdateUserHandler. case_decide.
    + rewrite ErrorResponse_total by done. eexists. split; [reflexivity|]. done.
    + change (RequestBody (app.apiRequestOf hr)) with "". rewrite Hdec.
      rewrite ErrorResponse_total by done. eexists. split; [reflexivity|]. done.
Qed.

Lemma adapt_never_decodes_witness :
  ∃ w,
    app.adapt (λ key, key)
      (@handlers.CreateUserHandler sampleJSON _ (traced inMemoryUserRepository)
         (mkAmbient "u-9" 1))
      (app.mkHttpRequest "/users" "POST" ∅ ∅ (λ _, "")) ({[ "u-1" := alice ]}, [])
    = (w, ({[ "u-1" := alice ]}, [])) ∧
    app.wStatus w = 400.
Proof.
  destruct (@adapt_never_decodes sampleJSON _ (traced inMemoryUserRepository)
              (λ key, key) (mkAmbient "u-9" 1)
              (app.mkHttpRequest "/users" "POST" ∅ ∅ (λ _, ""))
              ({[ "u-1" := alice ]}, []) (mkUserRequest "" "")
              "unexpected end of JSON input") as [(w & Hw & Hs & _) _].
  - vm_compute. reflexivity.
  - intros m. reflexivity.
  - by exists w.
Defined.

(** ** lambda on the in-memory repository *)
Section router_in_memory.
Context `{!JSON}.
Implicit Types (request : APIGatewayProxyRequest) (r : gmap string User).

Lemma store_wf_CreateUser user r :
  store_wf r → store_wf (inMemory.CreateUser user r).2.
Proof. intros Hwf. simpl. by apply map_Forall_insert_2. Qed.

Lemma store_wf_UpdateUser user r :
  store_wf r → store_wf (inMemory.UpdateUser user r).2.
Proof.
  intros Hwf. unfold inMemory.UpdateUser.
  destruct (r !! ID user); simpl; [by apply map_Forall_insert_2|done].
Qed.

Lemma store_wf_DeleteUser id r :
  store_wf r → store_wf (inMemory.DeleteUser id r).2.
Proof.
  intros Hwf. unfold inMemory.DeleteUser.
  destruct (r !! id); simpl; [by apply map_Forall_delete|done].
Qed.

Lemma store_GetUserByID id r : (inMemory.GetUserByID id r).2 = r.
Proof. unfold inMemory.GetUserByID. by destruct (r !! id). Qed.

Lemma route_store_wf env request r :
  store_wf r → store_wf (lambda.route env request r).2.
Proof.
  intros Hwf. unfold lambda.route. repeat case_decide; try done.
  - unfold lambda.handleCreateUser, handlers.CreateUserHandler.
    destruct (jsonUnmarshal _) as [userReq [err|]]; [done|].
    destruct (Validate _ _); [done|].
    by apply (store_wf_CreateUser (mkUser (uuid_New env) (ReqName userReq)
                                          (ReqEmail userReq) (time_Now env))).
  - unfold lambda.handleGetUser, handlers.GetUserHandler. case_decide; [done|].
    simpl. pose proof (store_GetUserByID (handlers.pathID request) r) as Hs.
    destruct (inMemory.GetUserByID _ r) as [[user [err|]] r1]; simpl in *; by subst.
  - unfold lambda.handleUpdateUser, handlers.UpdateUserHandler. case_decide; [done|].
    destruct (jsonUnmarshal _) as [userReq [err|]]; [done|].
    destruct (Validate _ _); [done|].
    simpl. pose proof (store_GetUserByID (handlers.pathID request) r) as Hs.
    destruct (inMemory.GetUserByID _ r) as [[existing [err|]] r1]; simpl in *;
      subst r1; [done|].
    match goal with
    | |- context [inMemory.UpdateUser ?u r] =>
        pose proof (store_wf_UpdateUser u r Hwf) as Hupd;
        destruct (inMemory.UpdateUser u r) as [[updated [err|]] r2]
    end; done.
  - unfold lambda.handleDeleteUser, handlers.DeleteUserHandler. case_decide; [done|].
    simpl. pose proof (store_wf_DeleteUser (handlers.pathID request) r Hwf) as Hdel.
    destruct (inMemory.DeleteUser _ r) as [[err|] r1]; [case_decide|]; done.
Qed.

(** The store [Router] leaves is the given one for OPTIONS and the one the
    switch leaves otherwise, also when it panics. *)
Lemma Router_store {S : Type} `{!UserRepository S} env request (s : S) :
  (lambda.Router env request s).2 = s ∨
  (lambda.Router env request s).2 = (lambda.route env request s).2.
Proof.
  unfold lambda.Router. case_decide; [by left|]. right.
  destruct (lambda.route env request s) as [[response [e|]] s']; [|done].
  destruct (utils.ErrorResponse _ _) as [errorResponse o].
  by destruct (Headers errorResponse).
Qed.
End router_in_memory.

(** X22: on the in-memory repository, whatever the request, [Router] leaves
    every user under its own id if it found the store so. *)
Theorem Router_keeps_ids `{!JSON} (env : Ambient) (request : APIGatewayProxyRequest)
    (r : gmap string User) :
  store_wf r → store_wf (lambda.Router env request r).2.
Proof.
  intros Hwf. destruct (Router_store env request r) as [-> | ->]; [done|].
  by apply route_store_wf.
Qed.

Lemma Router_keeps_ids_witness :
  store_wf (@lambda.Router sampleJSON _ inMemoryUserRepository (mkAmbient "u-9" 1)
              (mkRequest "/users" "POST" ∅ ∅ ∅
                 (user_request_body "Alice" "alice@example.com"))
              {[ "u-2" := bob ]}).2.
Proof.
  apply (@Router_keeps_ids sampleJSON).
  refine (@bool_decide_unpack (store_wf {[ "u-2" := bob ]}) _ _).
  vm_compute. exact I.
Defined.

Section router_composition.
Context `{!JSON} {S : Type} `{!UserRepository S}.

(** [Router] on a request that is not OPTIONS and whose handler returned
    without error. *)
Lemma Router_success env request (s s' : S) response :
  HTTPMethod request ≠ http.MethodOptions →
  lambda.route env request s = ((response, None), s') →
  lambda.Router env request s
  = (Returned (utils.withHeaders response (Some lambda.commonHeaders), None), s').
Proof.
  intros Hm Hr. pose proof (route_shaped env request s) as Hshape.
  unfold lambda.Router. rewrite decide_False by done. rewrite Hr in *.
  simpl in *. by rewrite (merge_commonHeaders response Hshape).
Qed.

Lemma route_root env request (s : S) :
  Path request = "/" → HTTPMethod request = "GET" →
  lambda.route env request s = (lambda.handleRootGet request, s).
Proof. intros Hp Hm. unfold lambda.route. rewrite Hp, Hm. by rewrite decide_True. Qed.

Lemma route_health env request (s : S) :
  Path request = "/health" → HTTPMethod request = "GET" →
  lambda.route env request s = (handlers.GetHealthHandler request, s).
Proof.
  intros Hp Hm. unfold lambda.route. rewrite Hp, Hm.
  rewrite decide_False by (intros [? _]; discriminate). by rewrite decide_True.
Qed.

Lemma route_create env request (s : S) :
  Path request = "/users" → HTTPMethod request = "POST" →
  lambda.route env request s = handlers.CreateUserHandler env request s.
Proof.
  intros Hp Hm. unfold lambda.route. rewrite Hp, Hm.
  do 2 (rewrite decide_False by (intros [? _]; discriminate)). by rewrite decide_True.
Qed.

Lemma route_get env request (s : S) :
  Path request = "/users/{id}" → HTTPMethod request = "GET" →
  lambda.route env request s = handlers.GetUserHandler request s.
Proof.
  intros Hp Hm. unfold lambda.route. rewrite Hp, Hm.
  do 3 (rewrite decide_False by (intros [? ?]; discriminate)). by rewrite decide_True.
Qed.
End router_composition.

(** X23: through [Router] on the in-memory repository, a valid
    [POST /users] is answered 201 with the encoded new user and the common
    headers, and a following [GET /users/{id}] whose path parameter is the id
    that was generated is answered 200 with the same body, the store being
    left as the create left it. *)
Theorem Router_create_then_get `{!JSON} (env env' : Ambient)
    (create get : APIGatewayProxyRequest) (r : gmap string User)
    (name email body : string) :
  Path create = "/users" → HTTPMethod create = "POST" →
  jsonUnmarshal (RequestBody create) = (mkUserRequest name email, None) →
  name ≠ "" → email ≠ "" →
  uuid_New env ≠ "" →
  jsonMarshal (PUser (mkUser (uuid_New env) name email (time_Now env))) = (body, None) →
  Path get = "/users/{id}" → HTTPMethod get = "GET" →
  PathParameters get !! "id" = Some (uuid_New env) →
  ∃ r',
    lambda.Router env create r
    = (Returned (mkResponse 201 (Some lambda.commonHeaders) (Some ∅) body false, None),
       r') ∧
    lambda.Router env' get r'
    = (Returned (mkResponse 200 (Some lambda.commonHeaders) (Some ∅) body false, None),
       r').
Proof.
  intros Hp Hm Hdec Hname Hemail Huuid Henc Hp' Hm' Hid.
  exists (<[uuid_New env := mkUser (uuid_New env) name email (time_Now env)]> r).
  split.
  - rewrite (Router_success env create r
               (<[uuid_New env := mkUser (uuid_New env) name email (time_Now env)]> r)
               (mkResponse 201 (Some {[ "Content-Type" := "application/json" ]}) (Some ∅)
                  body false)); [done|by rewrite Hm|].
    rewrite route_create by done.
    rewrite (CreateUserHandler_valid _ _ _ name email) by done.
    by rewrite (APIResponse_ok _ _ body).
  - rewrite (Router_success env' get _
               (<[uuid_New env := mkUser (uuid_New env) name email (time_Now env)]> r)
               (mkResponse 200 (Some {[ "Content-Type" := "application/json" ]}) (Some ∅)
                  body false)); [done|by rewrite Hm'|].
    rewrite route_get by done. unfold handlers.GetUserHandler, handlers.pathID.
    rewrite Hid. simpl. rewrite decide_False by done.
    rewrite (inMemory_GetUserByID_Some _ (mkUser (uuid_New env) name email (time_Now env)))
      by apply lookup_insert_eq.
    by rewrite (APIResponse_ok _ _ body).
Qed.

Lemma Router_create_then_get_witness :
  ∃ r',
    @lambda.Router sampleJSON _ inMemoryUserRepository (mkAmbient "u-9" 1700000002)
      (postUser (user_request_body "Alice" "alice@example.com")) {[ "u-2" := bob ]}
    = (Returned (mkResponse 201 (Some lambda.commonHeaders) (Some ∅)
                   (sample_user (mkUser "u-9" "Alice" "alice@example.com" 1700000002))
                   false, None), r') ∧
    @lambda.Router sampleJSON _ inMemoryUserRepository (mkAmbient "u-10" 1700000003)
      (getUser "u-9") r'
    = (Returned (mkResponse 200 (Some lambda.commonHeaders) (Some ∅)
                   (sample_user (mkUser "u-9" "Alice" "alice@example.com" 1700000002))
                   false, None), r').
Proof.
  apply (@Router_create_then_get sampleJSON (mkAmbient "u-9" 1700000002)
           (mkAmbient "u-10" 1700000003)
           (postUser (user_request_body "Alice" "alice@example.com")) (getUser "u-9")
           {[ "u-2" := bob ]} "Alice" "alice@example.com").
  - reflexivity.
  - reflexivity.
  - vm_compute. reflexivity.
  - discriminate.
  - discriminate.
  - discriminate.
  - reflexivity.
  - reflexivity.
  - reflexivity.
  - reflexivity.
Defined.

(** X24: [GET /] and [GET /health] are answered by [Router] with 200, the
    common headers and the encoding of the welcome and the health message,
    for every repository and without touching the store. *)
Theorem Router_root_and_health `{!JSON} {S : Type} `{!UserRepository S}
    (env : Ambient) (request : APIGatewayProxyRequest) (s : S) :
  HTTPMethod request = "GET" →
  encodes_string_maps →
  (Path request = "/" →
   lambda.Router env request s
   = (Returned (mkResponse 200 (Some lambda.commonHeaders) (Some ∅)
                  (jsonMarshal
                     (PStringMap {[ "message" := "Welcome to the Go Lambda API" ]})).1
                  false, None), s)) ∧
  (Path request = "/health" →
   lambda.Router env request s
   = (Returned (mkResponse 200 (Some lambda.commonHeaders) (Some ∅)
                  (jsonMarshal (PStringMap {[ "message" := "Health Check OK" ]})).1
                  false, None), s)).
Proof.
  intros Hm Henc. split; intros Hp.
  - rewrite (Router_success env request s s
               (api_response 200
                  (PStringMap {[ "message" := "Welcome to the Go Lambda API" ]})));
      [done|by rewrite Hm|].
    rewrite route_root by done. unfold lambda.handleRootGet.
    by rewrite APIResponse_total.
  - rewrite (Router_success env request s s
               (api_response 200 (PStringMap {[ "message" := "Health Check OK" ]})));
      [done|by rewrite Hm|].
    rewrite route_health by done. unfold handlers.GetHealthHandler.
    by rewrite APIResponse_total.
Qed.

Lemma Router_root_and_health_witness :
  @lambda.Router sampleJSON _ inMemoryUserRepository (mkAmbient "u-9" 1)
    (mkRequest "/health" "GET" ∅ ∅ ∅ "") {[ "u-1" := alice ]}
  = (Returned (mkResponse 200 (Some lambda.commonHeaders) (Some ∅)
                 ("{" ++ quoted "message" ++ ":" ++ quoted "Health Check OK" ++ "}")
                 false, None), {[ "u-1" := alice ]}).
Proof.
  destruct (@Router_root_and_health sampleJSON _ inMemoryUserRepository
              (mkAmbient "u-9" 1) (mkRequest "/health" "GET" ∅ ∅ ∅ "")
              {[ "u-1" := alice ]}) as [_ Hhealth].
  - reflexivity.
  - intros m. reflexivity.
  - rewrite Hhealth by reflexivity. vm_compute. reflexivity.
Defined.
